(** * Resume-Critic backend: the extraction dispatcher, the AI reply parser
      and the document renderer of [server.js], with the properties the
      specification states about them. *)

From Stdlib Require Import String Ascii List NArith Arith Bool Lia.
Import ListNotations.
Local Open Scope list_scope.

(* ================================================================== *)
(** * Part I. Definitions                                              *)
(* ================================================================== *)

(** ** JavaScript strings

    A JavaScript string is a sequence of UTF-16 code units; [length],
    [trim], [includes], [split] and [replace] all work on code units. *)

Definition jsstring := list N.

(** A 7-bit literal of the source, one code unit per character. *)
Definition lit (s : string) : jsstring :=
  map N_of_ascii (list_ascii_of_string s).
Arguments lit s%_string.

Definition nl : jsstring := [10%N].          (* "\n" *)
Definition emdash : jsstring := [8212%N].    (* U+2014 *)
Definition bullet : jsstring := [8226%N].    (* U+2022 *)
Definition backtick : N := 96%N.

Fixpoint jsEqb (a b : jsstring) : bool :=
  match a, b with
  | [], [] => true
  | x :: a', y :: b' => N.eqb x y && jsEqb a' b'
  | _, _ => false
  end.

(** [String.prototype.startsWith]. *)
Fixpoint startsWith (p s : jsstring) : bool :=
  match p, s with
  | [], _ => true
  | _ :: _, [] => false
  | x :: p', y :: s' => N.eqb x y && startsWith p' s'
  end.

(** [String.prototype.includes]. *)
Fixpoint includes (p s : jsstring) : bool :=
  startsWith p s ||
  match s with
  | [] => false
  | _ :: s' => includes p s'
  end.

(** [Array.prototype.join] on an array of strings. *)
Fixpoint join (sep : jsstring) (l : list jsstring) : jsstring :=
  match l with
  | [] => []
  | [x] => x
  | x :: l' => x ++ sep ++ join sep l'
  end.

(** WhiteSpace and LineTerminator code units of ECMAScript, the ones
    [String.prototype.trim] removes. *)
Definition isWhiteSpace (c : N) : bool :=
  (((9 <=? c) && (c <=? 13)) || (c =? 32) || (c =? 160) || (c =? 5760)
   || ((8192 <=? c) && (c <=? 8202)) || (c =? 8232) || (c =? 8233)
   || (c =? 8239) || (c =? 8287) || (c =? 12288) || (c =? 65279))%N.

Fixpoint dropWhile {A} (f : A -> bool) (l : list A) : list A :=
  match l with
  | [] => []
  | x :: l' => if f x then dropWhile f l' else l
  end.

Definition trimStart (s : jsstring) : jsstring := dropWhile isWhiteSpace s.
Definition trimEnd (s : jsstring) : jsstring := rev (trimStart (rev s)).

(** [String.prototype.trim]. *)
Definition trim (s : jsstring) : jsstring := trimEnd (trimStart s).

(** ** The data model of a rewritten resume

    The fields are those the rewrite prompt asks the AI service for.
    [certifications] may be absent: the renderer guards it with
    [|| []] and [?.length]. A value of these types is a resume that has
    every other property; [RawResume], further down, is the body of a
    request as it arrives, where any of them may be missing. *)

Record Experience := {
  title : jsstring;
  company : jsstring;
  duration : jsstring;
  bullets : list jsstring
}.

Record Education := {
  degree : jsstring;
  institution : jsstring;
  edu_duration : jsstring
}.

Record Referee := {
  ref_name : jsstring;
  ref_title : jsstring;
  ref_company : jsstring;
  ref_phone : jsstring;
  ref_email : jsstring
}.

(** An element of [references]: a referee object, or a bare string such
    as ["Available upon request"]. *)
Inductive Reference :=
| RefObject (r : Referee)
| RefString (s : jsstring).

Record RewrittenResume := {
  name : jsstring;
  email : jsstring;
  phone : jsstring;
  location : jsstring;
  summary : jsstring;
  experience : list Experience;
  education : list Education;
  skills : list jsstring;
  certifications : option (list jsstring);
  references : list Reference
}.

Definition set_references (refs : list Reference) (r : RewrittenResume)
  : RewrittenResume :=
  {| name := name r; email := email r; phone := phone r;
     location := location r; summary := summary r;
     experience := experience r; education := education r;
     skills := skills r; certifications := certifications r;
     references := refs |}.

(** ** The plain-text template of [/api/download-resume] *)

(** [`${email} | ${phone} | ${location}`] *)
Definition contactLine (r : RewrittenResume) : jsstring :=
  email r ++ lit " | " ++ phone r ++ lit " | " ++ location r.

(** [`${exp.title} — ${exp.company}`] *)
Definition titleCompany (e : Experience) : jsstring :=
  title e ++ lit " " ++ emdash ++ lit " " ++ company e.

(** [`• ${b}`] *)
Definition bulletLine (b : jsstring) : jsstring :=
  bullet ++ lit " " ++ b.

(** The inner template of [experience.map]: a newline, the entry's
    heading line, its bullet lines, a newline. *)
Definition experienceText (e : Experience) : jsstring :=
  nl ++
  (titleCompany e ++ lit " (" ++ duration e ++ lit ")") ++ nl ++
  join nl (map bulletLine (bullets e)) ++ nl.

(** [`${e.degree} — ${e.institution} (${e.duration})`] *)
Definition educationLine (e : Education) : jsstring :=
  degree e ++ lit " " ++ emdash ++ lit " " ++ institution e ++
  lit " (" ++ edu_duration e ++ lit ")".

(** [rewrittenResume.certifications || []] *)
Definition certificationsOrEmpty (r : RewrittenResume) : list jsstring :=
  match certifications r with
  | Some l => l
  | None => []
  end.

(** The template literal before [.trim()], line by line. *)
Definition plainTextTemplate (r : RewrittenResume) : jsstring :=
  nl ++
  name r ++ nl ++
  contactLine r ++ nl ++
  nl ++
  lit "PROFESSIONAL SUMMARY" ++ nl ++
  summary r ++ nl ++
  nl ++
  lit "EXPERIENCE" ++ nl ++
  join nl (map experienceText (experience r)) ++ nl ++
  nl ++
  lit "EDUCATION" ++ nl ++
  join nl (map educationLine (education r)) ++ nl ++
  nl ++
  lit "SKILLS" ++ nl ++
  join (lit ", ") (skills r) ++ nl ++
  nl ++
  lit "CERTIFICATIONS" ++ nl ++
  join nl (certificationsOrEmpty r) ++ nl ++
  lit "    ".

Definition plainText (r : RewrittenResume) : jsstring :=
  trim (plainTextTemplate r).

(** ** The word-processing document of [/api/download-resume]

    The objects handed to the [docx] library: a [Document] with one
    section whose children are paragraphs; a paragraph carries a text or
    a list of runs, and possibly a heading level. *)

Inductive HeadingLevel := TITLE | HEADING_1.

Record TextRun := {
  run_text : jsstring;
  run_bold : bool
}.

Record Paragraph := {
  par_text : option jsstring;
  par_heading : option HeadingLevel;
  par_children : list TextRun
}.

(** A section; its [properties] are the empty object. *)
Record DocSection := {
  sec_children : list Paragraph
}.

Record Document := {
  sections : list DocSection
}.

(** [new Paragraph({ text })] *)
Definition P (t : jsstring) : Paragraph :=
  {| par_text := Some t; par_heading := None; par_children := [] |}.

(** [new Paragraph({ text, heading })] *)
Definition H (lvl : HeadingLevel) (t : jsstring) : Paragraph :=
  {| par_text := Some t; par_heading := Some lvl; par_children := [] |}.

(** [new Paragraph({ children })] *)
Definition PRuns (runs : list TextRun) : Paragraph :=
  {| par_text := None; par_heading := None; par_children := runs |}.

(** [new TextRun(s)] and [new TextRun({ text: s, bold: true })] *)
Definition Run (s : jsstring) : TextRun := {| run_text := s; run_bold := false |}.
Definition BoldRun (s : jsstring) : TextRun := {| run_text := s; run_bold := true |}.

(** The argument of [experience.flatMap]. *)
Definition experienceParagraphs (e : Experience) : list Paragraph :=
  [ PRuns [BoldRun (titleCompany e)];
    P (duration e) ] ++
  map (fun b => P (bulletLine b)) (bullets e) ++
  [ P [] ].

(** [certifications?.length ? [...] : []] *)
Definition certificationParagraphs (r : RewrittenResume) : list Paragraph :=
  match certifications r with
  | Some (c :: cs) =>
      H HEADING_1 (lit "CERTIFICATIONS") :: map P (c :: cs)
  | _ => []
  end.

Definition docChildren (r : RewrittenResume) : list Paragraph :=
  [ H TITLE (name r);
    PRuns [Run (contactLine r)];
    P [];

    H HEADING_1 (lit "PROFESSIONAL SUMMARY");
    P (summary r);
    P [];

    H HEADING_1 (lit "EXPERIENCE") ] ++
  flat_map experienceParagraphs (experience r) ++

  [ H HEADING_1 (lit "EDUCATION") ] ++
  map (fun e => P (educationLine e)) (education r) ++
  [ P [];

    H HEADING_1 (lit "SKILLS");
    P (join (lit ", ") (skills r));
    P [] ] ++

  certificationParagraphs r.

Definition buildDocument (r : RewrittenResume) : Document :=
  {| sections := [ {| sec_children := docChildren r |} ] |}.

(** ** Thrown values, results and the call log

    A thrown value is either raised by an external library or by the
    engine (its [message] property may be missing) or built by the
    server itself with [new Error(msg)]. *)

Inductive exn :=
| LibraryError (message : option jsstring)
| NewError (message : jsstring).

(** [err.message] *)
Definition exn_message (e : exn) : option jsstring :=
  match e with
  | LibraryError m => m
  | NewError m => Some m
  end.

Inductive result (A : Type) :=
| Ok (a : A)
| Throw (e : exn).
Arguments Ok {A} a.
Arguments Throw {A} e.

(** How a call into an external library ends: with a value, or by
    throwing something whose [message] may be missing. *)
Inductive lib (A : Type) :=
| Returns (a : A)
| Throws (message : option jsstring).
Arguments Returns {A} a.
Arguments Throws {A} message.

Definition fromLib {A} (r : lib A) : result A :=
  match r with
  | Returns a => Ok a
  | Throws m => Throw (LibraryError m)
  end.

Definition Buffer := list Byte.byte.

(** The options object given to [pdfjsLib.getDocument] next to [data];
    [None] is an option the call does not set. *)
Record PdfOptions := {
  standardFontDataUrl : option jsstring;
  useSystemFonts : option bool;
  disableFontFace : option bool
}.

(** A loaded PDF: for each page in order, the [str] of its text items, or
    what [getPage] / [getTextContent] throws for it. *)
Definition PdfDoc := list (lib (list jsstring)).

(** A JSON value, as [JSON.parse] returns it and [res.json] sends it. *)
#[warnings="-register-all"]
Inductive json :=
| JNull
| JBool (b : bool)
| JNumber (literal : jsstring)
| JString (s : jsstring)
| JArray (l : list json)
| JObject (fields : list (jsstring * json)).

(** The awaited calls that read a document, ask the model or pack a
    document — to [pdfjs], [mammoth], the model and the [docx] packer —
    in the order they are made. The sniffing of the content by
    [file-type], which [extractText] does first on every run, the
    decoding of buffers and [JSON.parse] are not logged, and neither is
    what the server writes to the console: an empty log means that none
    of the four was called, not that no library was used. *)
Inductive Event :=
| GetDocument (o : PdfOptions)
| ExtractRawText
| GenerateContent (prompt : jsstring)
| PackerToBuffer (doc : Document).

(** A computation: the calls it made and how it ended. *)
Definition M (A : Type) : Type := list Event * result A.

Definition ret {A} (a : A) : M A := ([], Ok a).
Definition throw {A} (e : exn) : M A := ([], Throw e).

Definition bind {A B} (m : M A) (k : A -> M B) : M B :=
  match m with
  | (l, Ok a) => let (l', r) := k a in (l ++ l', r)
  | (l, Throw e) => (l, Throw e)
  end.

(** [try { m } catch (err) { h err }] *)
Definition tryCatch {A} (m : M A) (h : exn -> M A) : M A :=
  match m with
  | (l, Throw e) => let (l', r) := h e in (l ++ l', r)
  | (l, Ok a) => (l, Ok a)
  end.

(** An awaited call to a library: logged, then its outcome. *)
Definition call {A} (ev : Event) (r : lib A) : M A := ([ev], fromLib r).

Definition liftR {A} (r : result A) : M A := ([], r).

Declare Scope js_scope.
Delimit Scope js_scope with js.
Notation "x <- m ;; k" := (bind m (fun x => k))
  (at level 61, m at next level, right associativity) : js_scope.
Local Open Scope js_scope.

(** ** External collaborators

    What the server imports: [file-type], [pdfjs-dist], [mammoth],
    Node's [Buffer] and [path], the generative model, [JSON.parse], the
    clock and the [docx] packer. *)

Record FileTypeResult := {
  ext : jsstring;
  mime : jsstring
}.

Record Externals := {
  fileTypeFromBuffer : Buffer -> option FileTypeResult;
  getDocument : PdfOptions -> Buffer -> lib PdfDoc;
  extractRawText : Buffer -> lib jsstring;
  (** [buffer.toString('utf-8')] *)
  Buffer_toString : Buffer -> jsstring;
  (** [Buffer.from(s, 'base64')] *)
  Buffer_from : jsstring -> Buffer;
  (** the [message] of what [Buffer.from(undefined, 'base64')] throws *)
  Buffer_from_undefined : option jsstring;
  path_join : jsstring -> jsstring -> jsstring;
  process_cwd : jsstring;
  (** [new Date().toLocaleDateString('en-US', ...)] *)
  currentDate : jsstring;
  (** [model.generateContent(prompt)], then [response.text()] *)
  generateContent : jsstring -> lib jsstring;
  JSON_parse : jsstring -> lib json;
  (** the reading of the clock while the request is served *)
  Date_now : N;
  (** [Packer.toBuffer(doc)] called at a given reading of the clock: the
      packer writes the time of the call into the archive, so the bytes
      are a function of the document and of that time *)
  Packer_toBuffer : N -> Document -> lib Buffer;
  (** the [message] of the TypeError the engine throws when property
      [k] of [undefined] is read *)
  undefinedProperty : jsstring -> option jsstring
}.

(** ** Parsers *)

(** The page loop of both PDF extractors:
    [fullText += content.items.map(item => item.str).join(" ") + "\n"]. *)
Fixpoint pagesText (pages : PdfDoc) (fullText : jsstring) : result jsstring :=
  match pages with
  | [] => Ok fullText
  | Returns items :: rest =>
      pagesText rest (fullText ++ join (lit " ") items ++ nl)
  | Throws m :: _ => Throw (LibraryError m)
  end.

Definition primaryOptions (E : Externals) : PdfOptions :=
  {| standardFontDataUrl :=
       Some (path_join E (process_cwd E)
                       (lit "node_modules/pdfjs-dist/standard_fonts/") ++ lit "/");
     useSystemFonts := None;
     disableFontFace := None |}.

Definition fallbackOptions : PdfOptions :=
  {| standardFontDataUrl := None;
     useSystemFonts := Some true;
     disableFontFace := Some true |}.

Definition extractTextFromPDF (E : Externals) (buffer : Buffer) : M jsstring :=
  pdfDoc <- call (GetDocument (primaryOptions E))
                 (getDocument E (primaryOptions E) buffer) ;;
  liftR (pagesText pdfDoc []).

Definition extractTextFromPDFFallback (E : Externals) (buffer : Buffer)
  : M jsstring :=
  pdfDoc <- call (GetDocument fallbackOptions)
                 (getDocument E fallbackOptions buffer) ;;
  liftR (pagesText pdfDoc []).

Definition extractTextFromDocx (E : Externals) (buffer : Buffer) : M jsstring :=
  call ExtractRawText (extractRawText E buffer).

Definition extractTextFromTxt (E : Externals) (buffer : Buffer) : jsstring :=
  Buffer_toString E buffer.

(** ** Main router *)

Definition mimePdf : jsstring := lit "application/pdf".
Definition mimeDocx : jsstring :=
  lit "application/vnd.openxmlformats-officedocument.wordprocessingml.document".
Definition mimeDoc : jsstring := lit "application/msword".

Definition unsupportedMessage : jsstring :=
  lit "Unsupported file type. Please upload a PDF, DOCX, DOC, or TXT file.".

(** [detected?.mime || mimeTypeHint], with the parameter default [""]:
    an empty [mime] is falsy. *)
Definition detectMime (E : Externals) (buffer : Buffer)
           (mimeTypeHint : option jsstring) : jsstring :=
  let hint := match mimeTypeHint with Some h => h | None => [] end in
  match fileTypeFromBuffer E buffer with
  | Some detected =>
      match mime detected with
      | [] => hint
      | m => m
      end
  | None => hint
  end.

(** [err.message?.includes('standardFontDataUrl') ||
     err.message?.includes('font')] *)
Definition fontRelated (err : exn) : bool :=
  match exn_message err with
  | Some m => includes (lit "standardFontDataUrl") m || includes (lit "font") m
  | None => false
  end.

Definition extractText (E : Externals) (buffer : Buffer)
           (mimeTypeHint : option jsstring) : M jsstring :=
  let mime := detectMime E buffer mimeTypeHint in
  if jsEqb mime mimePdf then
    tryCatch (extractTextFromPDF E buffer)
      (fun err =>
         if fontRelated err then extractTextFromPDFFallback E buffer
         else throw err)
  else if jsEqb mime mimeDocx || jsEqb mime mimeDoc then
    extractTextFromDocx E buffer
  else
    let text := extractTextFromTxt E buffer in
    if (0 <? length (trim text))%nat then ret text
    else throw (NewError unsupportedMessage).

(** ** The data-URL marker of an uploaded payload *)

(** [String.prototype.split] with a non-empty separator: scan from the
    left, close the current segment at each occurrence of [sep] and
    resume after it. [skip] counts the code units of a matched separator
    still to pass over; [cur] is the open segment, reversed. *)
Fixpoint splitFrom (sep s : jsstring) (skip : nat) (cur : jsstring)
  : list jsstring :=
  match s with
  | [] => [rev cur]
  | c :: s' =>
      match skip with
      | S k => splitFrom sep s' k cur
      | O =>
          if startsWith sep s
          then rev cur :: splitFrom sep s' (length sep - 1) []
          else splitFrom sep s' 0 (c :: cur)
      end
  end.

Definition split (sep s : jsstring) : list jsstring := splitFrom sep s 0 [].

Definition base64Marker : jsstring := lit "base64,".

(** [s.includes('base64,') ? s.split('base64,')[1] : s]; [None] is
    [undefined]. *)
Definition base64Data (payload : jsstring) : option jsstring :=
  if includes base64Marker payload
  then nth_error (split base64Marker payload) 1
  else Some payload.

Definition decodePayload (E : Externals) (payload : jsstring) : M Buffer :=
  match base64Data payload with
  | Some d => ret (Buffer_from E d)
  | None => throw (LibraryError (Buffer_from_undefined E))
  end.

(** ** The AI reply parser *)

Definition twoTicks : jsstring := [backtick; backtick].
Definition fence : jsstring := backtick :: twoTicks.
Definition fenceJson : jsstring := fence ++ lit "json".

(** [text.replace(/```json|```/g, "")]: at each position the longer
    alternative is tried first; a match is dropped and the scan resumes
    after it. [skip] counts the code units of a match still to drop. *)
Fixpoint replaceFences (s : jsstring) (skip : nat) : jsstring :=
  match s with
  | [] => []
  | c :: s' =>
      match skip with
      | S k => replaceFences s' k
      | O =>
          if startsWith fenceJson s then replaceFences s' 6
          else if startsWith fence s then replaceFences s' 2
          else c :: replaceFences s' 0
      end
  end.

Definition stripFences (text : jsstring) : jsstring := replaceFences text 0.

Definition cleanJson (text : jsstring) : jsstring := trim (stripFences text).

(** [JSON.parse(text.replace(/```json|```/g, "").trim())] *)
Definition parseReply (E : Externals) (text : jsstring) : result json :=
  fromLib (JSON_parse E (cleanJson text)).

(** ** Prompts *)

Definition dq : jsstring := [34%N].          (* the double quote *)

Record Critique := {
  strengths : jsstring;
  weaknesses : jsstring;
  suggestions : jsstring;
  overall : jsstring
}.

Definition critiquePrompt (currentDate extractedText : jsstring) : jsstring :=
  nl ++
  join nl [
    lit "      You are an expert resume critic. Today's date is " ++ currentDate ++ lit ".";
    lit "      Use this date as context when evaluating timelines, employment gaps, ";
    lit "      graduation dates, and experience durations. Do not assume any dates ";
    lit "      are in the future if they have already passed based on today's date.";
    lit "      ";
    lit "      Return ONLY a valid JSON object.";
    lit "      Do not include markdown formatting, backticks, or the word " ++ dq ++ lit "json" ++ dq ++ lit ".";
    lit "      ";
    lit "      {";
    lit "        " ++ dq ++ lit "strengths" ++ dq ++ lit ": " ++ dq ++ lit "..." ++ dq ++ lit ",";
    lit "        " ++ dq ++ lit "weaknesses" ++ dq ++ lit ": " ++ dq ++ lit "..." ++ dq ++ lit ",";
    lit "        " ++ dq ++ lit "suggestions" ++ dq ++ lit ": " ++ dq ++ lit "..." ++ dq ++ lit ",";
    lit "        " ++ dq ++ lit "overall" ++ dq ++ lit ": " ++ dq ++ lit "Score /10" ++ dq;
    lit "      }";
    [];
    lit "      Resume content:";
    lit "      " ++ extractedText ] ++ nl ++
  lit "    ".

Definition rewritePrompt (currentDate resumeContent : jsstring)
           (critique : Critique) : jsstring :=
  nl ++
  join nl [
    lit "      You are a professional resume editor. Today's date is " ++ currentDate ++ lit ".";
    lit "      ";
    lit "      Your job is to IMPROVE the resume's presentation, NOT to invent or change any factual details.";
    lit "      ";
    lit "      STRICT RULES " ++ emdash ++ lit " you must follow these without exception:";
    lit "      1. DO NOT change the person's name, email, phone number, or location";
    lit "      2. DO NOT change any company names, job titles, or employment dates";
    lit "      3. DO NOT change any school names, degree names, or graduation dates";
    lit "      4. DO NOT add jobs, education, or certifications that are not in the original";
    lit "      5. DO NOT remove any jobs, education, or certifications from the original";
    lit "      6. DO NOT invent or fabricate any facts, numbers, or achievements";
    lit "      7. ONLY improve the wording, grammar, and structure of what already exists";
    lit "      8. ONLY add a professional summary if one does not already exist, based strictly on the existing information";
    lit "      9. Bullet points should be rewritten using strong action verbs but must reflect only what is stated in the original";
    lit "      10. If the original resume contains a references section, you MUST include it exactly as-is " ++ emdash ++ lit " do not omit, alter, or summarize it";
    lit "      11. If the original says " ++ dq ++ lit "References available upon request" ++ dq ++ lit " or similar, preserve that exact phrase";
    lit "      12. Include ALL sections from the original resume " ++ emdash ++ lit " do not skip any section regardless of which page it was on";
    [];
    lit "      Return ONLY a valid JSON object in this exact format, no markdown, no backticks:";
    lit "      {";
    lit "        " ++ dq ++ lit "name" ++ dq ++ lit ": " ++ dq ++ lit "exact name from original" ++ dq ++ lit ",";
    lit "        " ++ dq ++ lit "email" ++ dq ++ lit ": " ++ dq ++ lit "exact email from original" ++ dq ++ lit ",";
    lit "        " ++ dq ++ lit "phone" ++ dq ++ lit ": " ++ dq ++ lit "exact phone from original" ++ dq ++ lit ",";
    lit "        " ++ dq ++ lit "location" ++ dq ++ lit ": " ++ dq ++ lit "exact location from original" ++ dq ++ lit ",";
    lit "        " ++ dq ++ lit "summary" ++ dq ++ lit ": " ++ dq ++ lit "improved or newly written summary based only on existing info" ++ dq ++ lit ",";
    lit "        " ++ dq ++ lit "experience" ++ dq ++ lit ": [";
    lit "          {";
    lit "            " ++ dq ++ lit "title" ++ dq ++ lit ": " ++ dq ++ lit "exact title from original" ++ dq ++ lit ",";
    lit "            " ++ dq ++ lit "company" ++ dq ++ lit ": " ++ dq ++ lit "exact company from original" ++ dq ++ lit ",";
    lit "            " ++ dq ++ lit "duration" ++ dq ++ lit ": " ++ dq ++ lit "exact duration from original" ++ dq ++ lit ",";
    lit "            " ++ dq ++ lit "bullets" ++ dq ++ lit ": [" ++ dq ++ lit "improved wording of original bullet" ++ dq ++ lit ", " ++ dq ++ lit "..." ++ dq ++ lit "]";
    lit "          }";
    lit "        ],";
    lit "        " ++ dq ++ lit "education" ++ dq ++ lit ": [";
    lit "          {";
    lit "            " ++ dq ++ lit "degree" ++ dq ++ lit ": " ++ dq ++ lit "exact degree from original" ++ dq ++ lit ",";
    lit "            " ++ dq ++ lit "institution" ++ dq ++ lit ": " ++ dq ++ lit "exact institution from original" ++ dq ++ lit ",";
    lit "            " ++ dq ++ lit "duration" ++ dq ++ lit ": " ++ dq ++ lit "exact duration from original" ++ dq;
    lit "          }";
    lit "        ],";
    lit "        " ++ dq ++ lit "skills" ++ dq ++ lit ": [" ++ dq ++ lit "exact skills from original, no additions" ++ dq ++ lit "],";
    lit "        " ++ dq ++ lit "certifications" ++ dq ++ lit ": [" ++ dq ++ lit "exact certifications from original, no additions" ++ dq ++ lit "],";
    lit "        " ++ dq ++ lit "references" ++ dq ++ lit ": [";
    lit "          {";
    lit "            " ++ dq ++ lit "name" ++ dq ++ lit ": " ++ dq ++ lit "exact referee name" ++ dq ++ lit ",";
    lit "            " ++ dq ++ lit "title" ++ dq ++ lit ": " ++ dq ++ lit "exact referee title" ++ dq ++ lit ",";
    lit "            " ++ dq ++ lit "company" ++ dq ++ lit ": " ++ dq ++ lit "exact referee company" ++ dq ++ lit ",";
    lit "            " ++ dq ++ lit "phone" ++ dq ++ lit ": " ++ dq ++ lit "exact referee phone" ++ dq ++ lit ",";
    lit "            " ++ dq ++ lit "email" ++ dq ++ lit ": " ++ dq ++ lit "exact referee email if present" ++ dq;
    lit "          }";
    lit "        ]";
    lit "      }";
    [];
    lit "      Note on references: If the CV just says something like " ++ dq ++ lit "References available upon request" ++ dq ++ lit ", ";
    lit "      set references to [" ++ dq ++ lit "Available upon request" ++ dq ++ lit "] instead of the array of objects above.";
    [];
    lit "      Original Resume (treat every detail in here as ground truth " ++ emdash ++ lit " this includes ALL pages):";
    lit "      " ++ resumeContent;
    [];
    lit "      Critique to address (use this ONLY to improve wording and structure, not to change facts):";
    lit "      Strengths: " ++ strengths critique;
    lit "      Weaknesses: " ++ weaknesses critique;
    lit "      Suggestions: " ++ suggestions critique ] ++ nl ++
  lit "    ".

(** ** HTTP responses *)

Inductive Body :=
| BodyJson (j : json)
| BodyText (s : jsstring)
| BodyBuffer (b : Buffer).

(** The status, the headers set with [res.setHeader], and what is sent. *)
Record Response := {
  status : nat;
  headers : list (jsstring * jsstring);
  body : Body
}.

(** [res.status(code).json(obj)]; [res.json(obj)] is code 200. *)
Definition resJson (code : nat) (fields : list (jsstring * json)) : Response :=
  {| status := code; headers := []; body := BodyJson (JObject fields) |}.

(** A property whose value may be [undefined]: [JSON.stringify] leaves
    it out. *)
Definition optField (key : jsstring) (v : option jsstring)
  : list (jsstring * json) :=
  match v with
  | Some s => [(key, JString s)]
  | None => []
  end.

(** [{ success: false, error, details: err.message }] with status 500. *)
Definition failure500 (error : jsstring) (err : exn) : Response :=
  resJson 500 ([ (lit "success", JBool false);
                 (lit "error", JString error) ] ++
               optField (lit "details") (exn_message err)).

(** The outer [try { ... } catch (err) { res.status(500)... }] of a
    route. *)
Definition route (m : M Response) (onError : exn -> Response)
  : list Event * Response :=
  match m with
  | (l, Ok r) => (l, r)
  | (l, Throw e) => (l, onError e)
  end.

(** ** Routes *)

Record AnalyzeBody := {
  resumeText : option jsstring;
  analyze_mimeType : option jsstring
}.

Definition emptyContentMessage : jsstring :=
  lit "The file appears to be empty or image-based (e.g. a scanned PDF).".

(** [!text || text.trim().length < 10] *)
Definition tooShort (text : jsstring) : bool :=
  match text with
  | [] => true
  | _ => (length (trim text) <? 10)%nat
  end.

(** [parseErr.message || "Could not read file content."] *)
Definition messageOr (err : exn) (dflt : jsstring) : jsstring :=
  match exn_message err with
  | Some (c :: m) => c :: m
  | _ => dflt
  end.

Definition analyzeResume (E : Externals) (req : AnalyzeBody)
  : list Event * Response :=
  match resumeText req with
  | None | Some [] =>
      ([], resJson 400 [ (lit "success", JBool false);
                         (lit "error", JString (lit "No resume file provided")) ])
  | Some resumeText =>
      route
        (buffer <- decodePayload E resumeText ;;
         extractedText <-
           tryCatch (extractText E buffer (analyze_mimeType req))
             (fun parseErr =>
                throw (NewError
                         (messageOr parseErr (lit "Could not read file content.")))) ;;
         if tooShort extractedText then throw (NewError emptyContentMessage)
         else
           let prompt := critiquePrompt (currentDate E) extractedText in
           text <- call (GenerateContent prompt) (generateContent E prompt) ;;
           critique <- liftR (parseReply E text) ;;
           ret (resJson 200 [ (lit "success", JBool true);
                              (lit "critique", critique) ]))
        (failure500 (lit "AI analysis failed"))
  end.

Record RewriteBody := {
  resumeFile : option jsstring;
  rewrite_mimeType : option jsstring;
  critique : option Critique
}.

Definition reReadMessage : jsstring :=
  lit "Could not re-read the resume file. Please try again.".
Definition notEnoughTextMessage : jsstring :=
  lit "Could not extract enough text from the resume.".

Definition rewriteResume (E : Externals) (req : RewriteBody)
  : list Event * Response :=
  match resumeFile req, critique req with
  | Some (c :: f), Some critique =>
      let resumeFile := c :: f in
      route
        (resumeContent <-
           tryCatch
             (buffer <- decodePayload E resumeFile ;;
              extractText E buffer (rewrite_mimeType req))
             (fun parseErr => throw (NewError reReadMessage)) ;;
         if tooShort resumeContent then throw (NewError notEnoughTextMessage)
         else
           let prompt := rewritePrompt (currentDate E) resumeContent critique in
           text <- call (GenerateContent prompt) (generateContent E prompt) ;;
           rewrittenResume <- liftR (parseReply E text) ;;
           ret (resJson 200 [ (lit "success", JBool true);
                              (lit "rewrittenResume", rewrittenResume) ]))
        (failure500 (lit "Rewrite failed"))
  | _, _ =>
      ([], resJson 400 [ (lit "success", JBool false);
                         (lit "error",
                          JString (lit "Missing resume file or critique")) ])
  end.

Record DownloadBody := {
  rewrittenResume : option RewrittenResume;
  format : option jsstring
}.

Definition contentType : jsstring := lit "Content-Type".
Definition contentDisposition : jsstring := lit "Content-Disposition".

(** [`attachment; filename="resume.${format}"`] *)
Definition attachment (format : jsstring) : jsstring :=
  lit "attachment; filename=" ++ dq ++ lit "resume." ++ format ++ dq.

(** [/api/download-resume] on a request whose resume is a
    [RewrittenResume], every property present. [downloadRoute], below,
    is the route on the body as it arrives; the two agree on such a
    request (lemma [downloadRoute_typed]). *)
Definition downloadResume (E : Externals) (req : DownloadBody)
  : list Event * Response :=
  match rewrittenResume req, format req with
  | Some rewrittenResume, Some (c :: f) =>
      let format := c :: f in
      route
        (let plainText := plainText rewrittenResume in
         if jsEqb format (lit "txt") then
           ret {| status := 200;
                  headers := [ (contentType, lit "text/plain");
                               (contentDisposition, attachment (lit "txt")) ];
                  body := BodyText plainText |}
         else if jsEqb format (lit "docx") || jsEqb format (lit "doc") then
           let doc := buildDocument rewrittenResume in
           buffer <- call (PackerToBuffer doc)
                          (Packer_toBuffer E (Date_now E) doc) ;;
           ret {| status := 200;
                  headers := [ (contentType, mimeDocx);
                               (contentDisposition, attachment format) ];
                  body := BodyBuffer buffer |}
         else if jsEqb format (lit "pdf") then
           ret (resJson 200 [ (lit "success", JBool true);
                              (lit "plainText", JString plainText) ])
         else
           ret (resJson 400 [ (lit "success", JBool false);
                              (lit "error", JString (lit "Unsupported format")) ]))
        (failure500 (lit "Download failed"))
  | _, _ =>
      ([], resJson 400 [ (lit "success", JBool false);
                         (lit "error",
                          JString (lit "Missing resume data or format")) ])
  end.

(** ** [/api/download-resume] on the body as it arrives

    The resume of a request is the JSON object the client sends, not a
    checked [RewrittenResume]. Here each property is present, with the
    type the data model gives it, or absent — [None], which the code
    reads as [undefined]. The template and the document are built from
    it without any test, so reading [map], [flatMap] or [join] of an
    absent array throws. *)

Record RawExperience := {
  raw_title : option jsstring;
  raw_company : option jsstring;
  raw_duration : option jsstring;
  raw_bullets : option (list jsstring)
}.

Record RawEducation := {
  raw_degree : option jsstring;
  raw_institution : option jsstring;
  raw_edu_duration : option jsstring
}.

Record RawResume := {
  raw_name : option jsstring;
  raw_email : option jsstring;
  raw_phone : option jsstring;
  raw_location : option jsstring;
  raw_summary : option jsstring;
  raw_experience : option (list RawExperience);
  raw_education : option (list RawEducation);
  raw_skills : option (list jsstring);
  raw_certifications : option (list jsstring);
  raw_references : option (list Reference)
}.

(** [`${v}`] for a property that may be absent. *)
Definition interpolate (v : option jsstring) : jsstring :=
  match v with
  | Some s => s
  | None => lit "undefined"
  end.

(** [v.k] for a method [k] of an array [v] that may be absent. *)
Definition member {A} (E : Externals) (v : option A) (k : jsstring)
  : result A :=
  match v with
  | Some a => Ok a
  | None => Throw (LibraryError (undefinedProperty E k))
  end.

Definition andThen {A B} (r : result A) (k : A -> result B) : result B :=
  match r with
  | Ok a => k a
  | Throw e => Throw e
  end.

Notation "x <~ r ;; k" := (andThen r (fun x => k))
  (at level 61, r at next level, right associativity) : js_scope.

(** [l.map(f)] where [f] may throw: the elements in order, up to the
    first that throws. *)
Fixpoint mapResult {A B} (f : A -> result B) (l : list A) : result (list B) :=
  match l with
  | [] => Ok []
  | x :: l' =>
      y <~ f x ;;
      ys <~ mapResult f l' ;;
      Ok (y :: ys)
  end.

Definition rawContactLine (raw : RawResume) : jsstring :=
  interpolate (raw_email raw) ++ lit " | " ++ interpolate (raw_phone raw)
    ++ lit " | " ++ interpolate (raw_location raw).

Definition rawTitleCompany (e : RawExperience) : jsstring :=
  interpolate (raw_title e) ++ lit " " ++ emdash ++ lit " "
    ++ interpolate (raw_company e).

Definition rawExperienceText (E : Externals) (e : RawExperience)
  : result jsstring :=
  bullets <~ member E (raw_bullets e) (lit "map") ;;
  Ok (nl ++
      (rawTitleCompany e ++ lit " (" ++ interpolate (raw_duration e)
         ++ lit ")") ++ nl ++
      join nl (map bulletLine bullets) ++ nl).

Definition rawEducationLine (e : RawEducation) : jsstring :=
  interpolate (raw_degree e) ++ lit " " ++ emdash ++ lit " "
    ++ interpolate (raw_institution e) ++
  lit " (" ++ interpolate (raw_edu_duration e) ++ lit ")".

Definition rawCertificationsOrEmpty (raw : RawResume) : list jsstring :=
  match raw_certifications raw with
  | Some l => l
  | None => []
  end.

(** The template literal of lines 309-330 and its [.trim()], its
    expressions evaluated from the first to the last. *)
Definition renderPlainText (E : Externals) (raw : RawResume)
  : result jsstring :=
  experience <~ member E (raw_experience raw) (lit "map") ;;
  entries <~ mapResult (rawExperienceText E) experience ;;
  education <~ member E (raw_education raw) (lit "map") ;;
  skills <~ member E (raw_skills raw) (lit "join") ;;
  Ok (trim
        (nl ++
         interpolate (raw_name raw) ++ nl ++
         rawContactLine raw ++ nl ++
         nl ++
         lit "PROFESSIONAL SUMMARY" ++ nl ++
         interpolate (raw_summary raw) ++ nl ++
         nl ++
         lit "EXPERIENCE" ++ nl ++
         join nl entries ++ nl ++
         nl ++
         lit "EDUCATION" ++ nl ++
         join nl (map rawEducationLine education) ++ nl ++
         nl ++
         lit "SKILLS" ++ nl ++
         join (lit ", ") skills ++ nl ++
         nl ++
         lit "CERTIFICATIONS" ++ nl ++
         join nl (rawCertificationsOrEmpty raw) ++ nl ++
         lit "    ")).

(** [new Paragraph({ text })] and [new Paragraph({ text, heading })]
    where [text] may be [undefined]. *)
Definition Popt (t : option jsstring) : Paragraph :=
  {| par_text := t; par_heading := None; par_children := [] |}.
Definition Hopt (lvl : HeadingLevel) (t : option jsstring) : Paragraph :=
  {| par_text := t; par_heading := Some lvl; par_children := [] |}.

Definition rawExperienceParagraphs (E : Externals) (e : RawExperience)
  : result (list Paragraph) :=
  bullets <~ member E (raw_bullets e) (lit "map") ;;
  Ok ([ PRuns [BoldRun (rawTitleCompany e)];
        Popt (raw_duration e) ] ++
      map (fun b => P (bulletLine b)) bullets ++
      [ P [] ]).

Definition rawCertificationParagraphs (raw : RawResume) : list Paragraph :=
  match raw_certifications raw with
  | Some (c :: cs) =>
      H HEADING_1 (lit "CERTIFICATIONS") :: map P (c :: cs)
  | _ => []
  end.

(** The [children] of lines 342-377, its elements evaluated from the
    first to the last. *)
Definition rawDocChildren (E : Externals) (raw : RawResume)
  : result (list Paragraph) :=
  experience <~ member E (raw_experience raw) (lit "flatMap") ;;
  entries <~ mapResult (rawExperienceParagraphs E) experience ;;
  education <~ member E (raw_education raw) (lit "map") ;;
  skills <~ member E (raw_skills raw) (lit "join") ;;
  Ok ([ Hopt TITLE (raw_name raw);
        PRuns [Run (rawContactLine raw)];
        P [];

        H HEADING_1 (lit "PROFESSIONAL SUMMARY");
        Popt (raw_summary raw);
        P [];

        H HEADING_1 (lit "EXPERIENCE") ] ++
      concat entries ++

      [ H HEADING_1 (lit "EDUCATION") ] ++
      map (fun e => P (rawEducationLine e)) education ++
      [ P [];

        H HEADING_1 (lit "SKILLS");
        P (join (lit ", ") skills);
        P [] ] ++

      rawCertificationParagraphs raw).

Record DownloadRequest := {
  req_rewrittenResume : option RawResume;
  req_format : option jsstring
}.

(** The route, lines 301-397: the plain text is built first, whatever
    the format. *)
Definition downloadRoute (E : Externals) (req : DownloadRequest)
  : list Event * Response :=
  match req_rewrittenResume req, req_format req with
  | Some rewrittenResume, Some (c :: f) =>
      let format := c :: f in
      route
        (plainText <- liftR (renderPlainText E rewrittenResume) ;;
         if jsEqb format (lit "txt") then
           ret {| status := 200;
                  headers := [ (contentType, lit "text/plain");
                               (contentDisposition, attachment (lit "txt")) ];
                  body := BodyText plainText |}
         else if jsEqb format (lit "docx") || jsEqb format (lit "doc") then
           children <- liftR (rawDocChildren E rewrittenResume) ;;
           let doc := {| sections := [ {| sec_children := children |} ] |} in
           buffer <- call (PackerToBuffer doc)
                          (Packer_toBuffer E (Date_now E) doc) ;;
           ret {| status := 200;
                  headers := [ (contentType, mimeDocx);
                               (contentDisposition, attachment format) ];
                  body := BodyBuffer buffer |}
         else if jsEqb format (lit "pdf") then
           ret (resJson 200 [ (lit "success", JBool true);
                              (lit "plainText", JString plainText) ])
         else
           ret (resJson 400 [ (lit "success", JBool false);
                              (lit "error", JString (lit "Unsupported format")) ]))
        (failure500 (lit "Download failed"))
  | _, _ =>
      ([], resJson 400 [ (lit "success", JBool false);
                         (lit "error",
                          JString (lit "Missing resume data or format")) ])
  end.

(** A [RewrittenResume] as a body in which every property is present. *)
Definition rawOfExperience (e : Experience) : RawExperience :=
  {| raw_title := Some (title e); raw_company := Some (company e);
     raw_duration := Some (duration e); raw_bullets := Some (bullets e) |}.

Definition rawOfEducation (e : Education) : RawEducation :=
  {| raw_degree := Some (degree e); raw_institution := Some (institution e);
     raw_edu_duration := Some (edu_duration e) |}.

Definition rawOfResume (r : RewrittenResume) : RawResume :=
  {| raw_name := Some (name r); raw_email := Some (email r);
     raw_phone := Some (phone r); raw_location := Some (location r);
     raw_summary := Some (summary r);
     raw_experience := Some (map rawOfExperience (experience r));
     raw_education := Some (map rawOfEducation (education r));
     raw_skills := Some (skills r);
     raw_certifications := certifications r;
     raw_references := Some (references r) |}.

Definition rawOfRequest (req : DownloadBody) : DownloadRequest :=
  {| req_rewrittenResume := option_map rawOfResume (rewrittenResume req);
     req_format := format req |}.

(** ** Notions used to state the properties *)

Definition isEmpty (s : jsstring) : bool :=
  match s with
  | [] => true
  | _ => false
  end.

(** The lines of a text: its pieces between line feeds. *)
Fixpoint linesOf (s : jsstring) : list jsstring :=
  match s with
  | [] => [[]]
  | c :: s' =>
      if (c =? 10)%N then [] :: linesOf s'
      else match linesOf s' with
           | l :: ls => (c :: l) :: ls
           | [] => [[c]]
           end
  end.

(** The content of a text once its layout is set aside: each line
    trimmed, blank lines dropped. *)
Definition contentLines (s : jsstring) : list jsstring :=
  filter (fun l => negb (isEmpty l)) (map trim (linesOf s)).

(** The text a paragraph shows, its heading level and the boldness and
    boundaries of its runs set aside. *)
Definition paragraphText (p : Paragraph) : jsstring :=
  match par_text p with
  | Some t => t
  | None => []
  end ++ concat (map run_text (par_children p)).

Definition documentLines (ps : list Paragraph) : list jsstring :=
  flat_map (fun p => contentLines (paragraphText p)) ps.

(** The texts of the level-1 headings of a document, in order. *)
Definition sectionHeadings (ps : list Paragraph) : list jsstring :=
  flat_map (fun p => match par_heading p with
                     | Some HEADING_1 => [paragraphText p]
                     | _ => []
                     end) ps.

(** The document in the layout of the plain text, written out: an
    experience entry with its duration on the heading line, in
    parentheses, and a CERTIFICATIONS heading that is always there.
    [alignDocument], below, gets it from the code's document. *)
Definition experienceParagraphsMerged (e : Experience) : list Paragraph :=
  [ P (titleCompany e ++ lit " (" ++ duration e ++ lit ")") ] ++
  map (fun b => P (bulletLine b)) (bullets e) ++
  [ P [] ].

Definition certificationParagraphsAlways (r : RewrittenResume)
  : list Paragraph :=
  H HEADING_1 (lit "CERTIFICATIONS") :: map P (certificationsOrEmpty r).

(** What [alignDocument (docChildren r)] comes to (lemma
    [alignDocument_docChildren]). *)
Definition alignedChildren (r : RewrittenResume) : list Paragraph :=
  [ H TITLE (name r);
    PRuns [Run (contactLine r)];
    P [];
    H HEADING_1 (lit "PROFESSIONAL SUMMARY");
    P (summary r);
    P [];
    H HEADING_1 (lit "EXPERIENCE") ] ++
  flat_map experienceParagraphsMerged (experience r) ++
  [ H HEADING_1 (lit "EDUCATION") ] ++
  map (fun e => P (educationLine e)) (education r) ++
  [ P [];
    H HEADING_1 (lit "SKILLS");
    P (join (lit ", ") (skills r));
    P [] ] ++
  certificationParagraphsAlways r.

(** [String.prototype.indexOf]: where the first occurrence starts. *)
Fixpoint indexOf (p s : jsstring) : option nat :=
  if startsWith p s then Some 0
  else match s with
       | [] => None
       | _ :: s' => option_map S (indexOf p s')
       end.

(** The part of a payload between the first and the second occurrence of
    the marker; what follows the first when there is no second; all of
    it when there is none. *)
Definition markerSegment (payload : jsstring) : jsstring :=
  match indexOf base64Marker payload with
  | None => payload
  | Some i =>
      let rest := skipn (i + length base64Marker) payload in
      match indexOf base64Marker rest with
      | None => rest
      | Some j => firstn j rest
      end
  end.

Definition availableUponRequest : jsstring := lit "Available upon request".

(** ** Sample inputs *)

Definition sampleExperience : Experience :=
  {| title := lit "Engineer"; company := lit "Acme";
     duration := lit "2020"; bullets := [lit "Built things"] |}.

(** A resume with one job, no certifications, references withheld. *)
Definition sampleResume : RewrittenResume :=
  {| name := lit "Ann Lee"; email := lit "ann@example.org";
     phone := lit "555-0100"; location := lit "Oslo";
     summary := lit "Builds things.";
     experience := [sampleExperience];
     education := [ {| degree := lit "BSc"; institution := lit "NTNU";
                       edu_duration := lit "2016" |} ];
     skills := [lit "C"; lit "Rocq"];
     certifications := Some [];
     references := [RefString availableUponRequest] |}.

(** The same person with no job yet and one certificate. *)
Definition sampleGraduate : RewrittenResume :=
  {| name := lit "Ann Lee"; email := lit "ann@example.org";
     phone := lit "555-0100"; location := lit "Oslo";
     summary := lit "Builds things.";
     experience := [];
     education := [ {| degree := lit "BSc"; institution := lit "NTNU";
                       edu_duration := lit "2016" |} ];
     skills := [lit "C"; lit "Rocq"];
     certifications := Some [lit "First aid"];
     references := [] |}.

Definition sampleCritique : Critique :=
  {| strengths := lit "clear"; weaknesses := lit "short";
     suggestions := lit "add detail"; overall := lit "7/10" |}.

(** A base64 decoder for the sample environment: code units outside the
    alphabet are passed over. *)
Definition sextet (c : N) : option N :=
  (if (65 <=? c) && (c <=? 90) then Some (c - 65)
   else if (97 <=? c) && (c <=? 122) then Some (c - 71)
   else if (48 <=? c) && (c <=? 57) then Some (c + 4)
   else if (c =? 43) || (c =? 45) then Some 62
   else if (c =? 47) || (c =? 95) then Some 63
   else None)%N.

Definition toByte (n : N) : Byte.byte :=
  match Byte.of_N (n mod 256) with
  | Some b => b
  | None => Byte.x00
  end.

Fixpoint packSextets (l : list N) : Buffer :=
  match l with
  | a :: b :: c :: d :: rest =>
      let w := (N.shiftl a 18 + N.shiftl b 12 + N.shiftl c 6 + d)%N in
      toByte (N.shiftr w 16) :: toByte (N.shiftr w 8) :: toByte w
             :: packSextets rest
  | [a; b; c] =>
      let w := (N.shiftl a 10 + N.shiftl b 4 + N.shiftr c 2)%N in
      [toByte (N.shiftr w 8); toByte w]
  | [a; b] => [toByte (N.shiftl a 2 + N.shiftr b 4)%N]
  | _ => []
  end.

Definition sampleBase64 (s : jsstring) : Buffer :=
  packSextets (flat_map (fun c => match sextet c with
                                  | Some v => [v]
                                  | None => []
                                  end) s).

(** Decoding of 7-bit text; other bytes become U+FFFD. *)
Definition sampleToString (b : Buffer) : jsstring :=
  map (fun x => let n := Byte.to_N x in
                if (n <? 128)%N then n else 65533%N) b.

Definition pdfMagic : Buffer := list_byte_of_string "%PDF".

Fixpoint bytesStartWith (p b : Buffer) : bool :=
  match p, b with
  | [], _ => true
  | _ :: _, [] => false
  | x :: p', y :: b' => Byte.eqb x y && bytesStartWith p' b'
  end.

(** An environment that recognises PDF files by their magic bytes, with
    a given outcome for the primary and for the fallback loading of a
    PDF, and a given reply of the model. *)
Definition sampleExternals (primary fallback : lib PdfDoc)
           (reply : lib jsstring) : Externals :=
  {| fileTypeFromBuffer := fun b =>
       if bytesStartWith pdfMagic b
       then Some {| ext := lit "pdf"; mime := mimePdf |}
       else None;
     getDocument := fun o _ =>
       match useSystemFonts o with
       | Some true => fallback
       | _ => primary
       end;
     extractRawText := fun b => Returns (sampleToString b);
     Buffer_toString := sampleToString;
     Buffer_from := sampleBase64;
     Buffer_from_undefined := Some (lit "The first argument must be of type string");
     path_join := fun a b => a ++ lit "/" ++ b;
     process_cwd := lit "/app";
     currentDate := lit "January 5, 2025";
     generateContent := fun _ => reply;
     JSON_parse := fun s =>
       if jsEqb s (lit "{}") then Returns (JObject [])
       else Throws (Some (lit "Unexpected token"));
     Date_now := 1736035200000%N;
     Packer_toBuffer := fun now _ =>
       Returns (list_byte_of_string "PK" ++ [toByte now]);
     undefinedProperty := fun k =>
       Some (lit "Cannot read properties of undefined (reading '"
               ++ k ++ lit "')") |}.

Definition fontError : lib PdfDoc :=
  Throws (Some (lit "Unable to load font data")).
Definition brokenPdf : lib PdfDoc :=
  Throws (Some (lit "Invalid PDF structure")).
Definition onePage : lib PdfDoc :=
  Returns [ Returns [lit "Ann"; lit "Lee"] ].

(** No PDF can be loaded. *)
Definition plainEnv : Externals :=
  sampleExternals brokenPdf brokenPdf (Returns (lit "{}")).

(** Loading a PDF fails on its fonts; the fallback reads one page. *)
Definition fontEnv : Externals :=
  sampleExternals fontError onePage (Returns (lit "{}")).

Definition samplePdf : Buffer := list_byte_of_string "%PDF-1.7".
Definition sampleText : Buffer := list_byte_of_string "abc".

Definition dataUrlPrefix : jsstring := lit "data:text/plain;".

(** The reply [{}] between two line feeds. *)
Definition bareReply : jsstring := nl ++ lit "{}" ++ nl.

(** The three bytes "abc", and three spaces, as data URLs. *)
Definition shortUpload : jsstring := lit "data:text/plain;base64,YWJj".
Definition blankUpload : jsstring := lit "data:text/plain;base64,ICAg".

(** ** Further notions and sample inputs *)

(** What one page adds to the text:
    [content.items.map(item => item.str).join(" ") + "\n"]. *)
Definition pageLine (items : list jsstring) : jsstring :=
  join (lit " ") items ++ nl.

(** The calls the extraction makes: to [pdfjs] and to [mammoth]. *)
Definition isExtractionCall (ev : Event) : bool :=
  match ev with
  | GetDocument _ | ExtractRawText => true
  | _ => false
  end.

(** The texts of the bold runs of a document, in order. *)
Definition boldTexts (ps : list Paragraph) : list jsstring :=
  flat_map (fun p => map run_text (filter run_bold (par_children p))) ps.

(** The texts of the paragraphs with the TITLE heading, in order. *)
Definition titleHeadings (ps : list Paragraph) : list jsstring :=
  flat_map (fun p => match par_heading p with
                     | Some TITLE => [paragraphText p]
                     | _ => []
                     end) ps.

(** The formats [/api/download-resume] knows. *)
Definition knownFormats : list jsstring :=
  [lit "txt"; lit "docx"; lit "doc"; lit "pdf"].

(** Every PDF loads, with one page. *)
Definition readableEnv : Externals :=
  sampleExternals onePage onePage (Returns (lit "{}")).

(** A PDF whose second page cannot be read. *)
Definition tornPdf : lib PdfDoc :=
  Returns [ Returns [lit "Ann"];
            Throws (Some (lit "page 2 is damaged"));
            Returns [lit "Lee"] ].
Definition tornEnv : Externals :=
  sampleExternals tornPdf tornPdf (Returns (lit "{}")).

(** A scanned PDF: two pages, no text item on either. *)
Definition scannedEnv : Externals :=
  sampleExternals (Returns (map Returns (repeat [] 2)))
                  (Returns (map Returns (repeat [] 2)))
                  (Returns (lit "{}")).

(** The model answers with prose; the model is unavailable. *)
Definition chattyEnv : Externals :=
  sampleExternals brokenPdf brokenPdf (Returns (lit "Sure, here it is")).
Definition silentEnv : Externals :=
  sampleExternals brokenPdf brokenPdf (Throws (Some (lit "quota exceeded"))).

(** An environment with another packer. *)
Definition withPacker (E : Externals) (packer : N -> Document -> lib Buffer)
  : Externals :=
  {| fileTypeFromBuffer := fileTypeFromBuffer E;
     getDocument := getDocument E;
     extractRawText := extractRawText E;
     Buffer_toString := Buffer_toString E;
     Buffer_from := Buffer_from E;
     Buffer_from_undefined := Buffer_from_undefined E;
     path_join := path_join E;
     process_cwd := process_cwd E;
     currentDate := currentDate E;
     generateContent := generateContent E;
     JSON_parse := JSON_parse E;
     Date_now := Date_now E;
     Packer_toBuffer := packer;
     undefinedProperty := undefinedProperty E |}.

Definition brokenPackerEnv : Externals :=
  withPacker plainEnv (fun _ _ => Throws (Some (lit "out of memory"))).

(** The text "John Doe, Software Engineer" and the bytes "%PDF-1.7" as
    data URLs. *)
Definition longText : jsstring := lit "John Doe, Software Engineer".
Definition longUpload : jsstring :=
  lit "data:text/plain;base64,Sm9obiBEb2UsIFNvZnR3YXJlIEVuZ2luZWVy".
Definition pdfUpload : jsstring :=
  lit "data:application/pdf;base64,JVBERi0xLjc=".

Definition paddedText : Buffer := list_byte_of_string "  John Doe  ".

(** The calls of an upload route: at most two extraction calls, then at
    most one call to the model. *)
Definition uploadLog (log : list Event) : Prop :=
  exists l rest,
    log = l ++ rest /\
    forallb isExtractionCall l = true /\
    length l <= 2 /\
    (rest = [] \/ exists prompt, rest = [GenerateContent prompt]).

(** The text [p] does not hold the code unit [c]. *)
Definition avoids (c : N) (p : jsstring) : bool :=
  forallb (fun x => negb (x =? c)%N) p.

(** The values the plain-text template prints: every field of the
    resume but [references]. *)
Definition experienceFields (e : Experience) : list jsstring :=
  [title e; company e; duration e] ++ bullets e.

Definition educationFields (e : Education) : list jsstring :=
  [degree e; institution e; edu_duration e].

Definition renderedFields (r : RewrittenResume) : list jsstring :=
  [name r; email r; phone r; location r; summary r] ++
  flat_map experienceFields (experience r) ++
  flat_map educationFields (education r) ++
  skills r ++
  certificationsOrEmpty r.

(** Bringing a document to the layout of the plain text, paragraph by
    paragraph: a paragraph with a bold run takes the paragraph after it
    onto its own line, in parentheses; and a CERTIFICATIONS heading is
    added at the end where the document has none. *)
Definition hasBold (p : Paragraph) : bool :=
  existsb run_bold (par_children p).

Fixpoint mergeDurations (ps : list Paragraph) : list Paragraph :=
  match ps with
  | [] => []
  | p :: tl =>
      if hasBold p then
        match tl with
        | q :: rest =>
            P (paragraphText p ++ lit " (" ++ paragraphText q ++ lit ")")
              :: mergeDurations rest
        | [] => [p]
        end
      else p :: mergeDurations tl
  end.

Definition isHeading1 (t : jsstring) (p : Paragraph) : bool :=
  match par_heading p with
  | Some HEADING_1 => jsEqb (paragraphText p) t
  | _ => false
  end.

Definition ensureCertifications (ps : list Paragraph) : list Paragraph :=
  if existsb (isHeading1 (lit "CERTIFICATIONS")) ps then ps
  else ps ++ [ H HEADING_1 (lit "CERTIFICATIONS") ].

Definition alignDocument (ps : list Paragraph) : list Paragraph :=
  ensureCertifications (mergeDurations ps).

(** What follows a fence marker once a [json] tag directly behind it is
    taken away with it. *)
Definition afterFence (s : jsstring) : jsstring :=
  if startsWith (lit "json") s then skipn 4 s else s.



(** The same collaborators at another reading of the clock. *)
Definition atTime (now : N) (E : Externals) : Externals :=
  {| fileTypeFromBuffer := fileTypeFromBuffer E;
     getDocument := getDocument E;
     extractRawText := extractRawText E;
     Buffer_toString := Buffer_toString E;
     Buffer_from := Buffer_from E;
     Buffer_from_undefined := Buffer_from_undefined E;
     path_join := path_join E;
     process_cwd := process_cwd E;
     currentDate := currentDate E;
     generateContent := generateContent E;
     JSON_parse := JSON_parse E;
     Date_now := now;
     Packer_toBuffer := Packer_toBuffer E;
     undefinedProperty := undefinedProperty E |}.




(* ================================================================== *)
(** * Part II. Properties                                              *)
(* ================================================================== *)

(** ** Strings: prefixes and occurrences *)

Lemma startsWith_app (p s : jsstring) : startsWith p (p ++ s) = true.
Proof.
  induction p as [|x p IH]; simpl; [reflexivity|].
  now rewrite N.eqb_refl, IH.
Qed.

Lemma startsWith_true (p s : jsstring) :
  startsWith p s = true -> s = p ++ skipn (length p) s.
Proof.
  revert s; induction p as [|x p IH]; intros [|y s]; simpl; try easy.
  intros Hp. apply andb_true_iff in Hp as [Hxy Hp].
  apply N.eqb_eq in Hxy. subst y. f_equal. now apply IH.
Qed.

Lemma startsWith_length (p s : jsstring) :
  startsWith p s = true -> length p <= length s.
Proof.
  revert s; induction p as [|x p IH]; intros [|y s]; simpl; try easy; try lia.
  intros Hp. apply andb_true_iff in Hp as [_ Hp]. apply IH in Hp. lia.
Qed.

Lemma startsWith_trans (p q s : jsstring) :
  startsWith p q = true -> startsWith q s = true -> startsWith p s = true.
Proof.
  revert q s; induction p as [|x p IH]; intros [|y q] [|z s]; simpl; try easy.
  intros Hpq Hqs.
  apply andb_true_iff in Hpq as [Hxy Hpq].
  apply andb_true_iff in Hqs as [Hyz Hqs].
  apply N.eqb_eq in Hxy, Hyz. subst. rewrite N.eqb_refl. simpl. eauto.
Qed.

Lemma includes_cons (p : jsstring) (c : N) (s : jsstring) :
  includes p (c :: s) = startsWith p (c :: s) || includes p s.
Proof. reflexivity. Qed.

Lemma includes_cons_false (p : jsstring) (c : N) (s : jsstring) :
  includes p (c :: s) = false ->
  startsWith p (c :: s) = false /\ includes p s = false.
Proof. rewrite includes_cons. apply orb_false_iff. Qed.

Lemma jsEqb_eq (a b : jsstring) : jsEqb a b = true <-> a = b.
Proof.
  revert b; induction a as [|x a IH]; intros [|y b]; simpl; try easy.
  rewrite andb_true_iff, N.eqb_eq, IH. split.
  - now intros [-> ->].
  - intros [= -> ->]. easy.
Qed.

Lemma jsEqb_refl (a : jsstring) : jsEqb a a = true.
Proof. now apply jsEqb_eq. Qed.

(** ** Strings: trimming *)

Lemma dropWhile_all {A} (f : A -> bool) (l : list A) :
  forallb f l = true -> dropWhile f l = [].
Proof.
  induction l as [|x l IH]; simpl; [reflexivity|].
  intros Hl. apply andb_true_iff in Hl as [-> Hl]. auto.
Qed.

Lemma dropWhile_snoc {A} (f : A -> bool) (l : list A) (c : A) :
  f c = true ->
  dropWhile f (l ++ [c]) =
  if forallb f l then [] else dropWhile f l ++ [c].
Proof.
  intros Hc. induction l as [|x l IH]; simpl.
  - now rewrite Hc.
  - destruct (f x); simpl; [exact IH | reflexivity].
Qed.

Lemma dropWhile_decomp {A} (f : A -> bool) (l : list A) :
  exists w, forallb f w = true /\ l = w ++ dropWhile f l.
Proof.
  induction l as [|x l (w & Hw & Hl)]; simpl.
  - now exists [].
  - destruct (f x) eqn:Hx.
    + exists (x :: w). simpl. rewrite Hx, Hw. split; [reflexivity|].
      now f_equal.
    + now exists [].
Qed.

Lemma forallb_rev {A} (f : A -> bool) (l : list A) :
  forallb f l = true -> forallb f (rev l) = true.
Proof.
  rewrite !forallb_forall. intros Hl x Hx. apply Hl. now apply in_rev.
Qed.

Lemma trim_nil : trim [] = [].
Proof. reflexivity. Qed.

Lemma trim_cons_ws (c : N) (l : jsstring) :
  isWhiteSpace c = true -> trim (c :: l) = trim l.
Proof. intros Hc. unfold trim, trimStart. simpl. now rewrite Hc. Qed.

Lemma trimEnd_snoc_ws (c : N) (l : jsstring) :
  isWhiteSpace c = true -> trimEnd (l ++ [c]) = trimEnd l.
Proof.
  intros Hc. unfold trimEnd, trimStart. rewrite rev_app_distr. simpl.
  now rewrite Hc.
Qed.

Lemma trim_snoc_ws (c : N) (l : jsstring) :
  isWhiteSpace c = true -> trim (l ++ [c]) = trim l.
Proof.
  intros Hc. unfold trim, trimStart.
  rewrite dropWhile_snoc by assumption.
  destruct (forallb isWhiteSpace l) eqn:Hl.
  - now rewrite dropWhile_all.
  - now apply trimEnd_snoc_ws.
Qed.

Lemma trimEnd_decomp (s : jsstring) :
  exists w, forallb isWhiteSpace w = true /\ s = trimEnd s ++ w.
Proof.
  destruct (dropWhile_decomp isWhiteSpace (rev s)) as (w & Hw & Hs).
  exists (rev w). split; [now apply forallb_rev|].
  unfold trimEnd, trimStart. rewrite <- rev_app_distr, <- Hs.
  now rewrite rev_involutive.
Qed.

Lemma trim_all_ws (s : jsstring) :
  forallb isWhiteSpace s = true -> trim s = [].
Proof.
  intros Hs. unfold trim, trimStart. now rewrite dropWhile_all.
Qed.

(** ** Lines and their content *)

Lemma linesOf_not_nil (s : jsstring) : linesOf s <> [].
Proof.
  destruct s as [|c s]; simpl; [easy|].
  destruct (c =? 10)%N; [easy|]. now destruct (linesOf s).
Qed.

Lemma linesOf_app_nl (a b : jsstring) :
  linesOf (a ++ nl ++ b) = linesOf a ++ linesOf b.
Proof.
  change (nl ++ b) with (10%N :: b).
  induction a as [|c a IH]; [reflexivity|].
  simpl. rewrite IH.
  destruct (c =? 10)%N; [reflexivity|].
  destruct (linesOf a) eqn:Ha; [now apply linesOf_not_nil in Ha|].
  reflexivity.
Qed.

Lemma linesOf_snoc (c : N) (s : jsstring) :
  (c =? 10)%N = false ->
  exists init lst,
    linesOf s = init ++ [lst] /\ linesOf (s ++ [c]) = init ++ [lst ++ [c]].
Proof.
  intros Hc. induction s as [|d s (init & lst & Hs & Hsc)].
  - exists [], []. simpl. now rewrite Hc.
  - simpl. rewrite Hs, Hsc. destruct (d =? 10)%N.
    + now exists ([] :: init), lst.
    + destruct init as [|i init]; simpl.
      * now exists [], (d :: lst).
      * now exists ((d :: i) :: init), lst.
Qed.

Lemma contentLines_nil : contentLines [] = [].
Proof. reflexivity. Qed.

Lemma contentLines_app_nl (a b : jsstring) :
  contentLines (a ++ nl ++ b) = contentLines a ++ contentLines b.
Proof.
  unfold contentLines. now rewrite linesOf_app_nl, map_app, filter_app.
Qed.

Lemma contentLines_nl_app (b : jsstring) :
  contentLines (nl ++ b) = contentLines b.
Proof. apply (contentLines_app_nl [] b). Qed.

Lemma contentLines_app_nl_end (a : jsstring) :
  contentLines (a ++ nl) = contentLines a.
Proof.
  rewrite <- (app_nil_r nl), contentLines_app_nl, contentLines_nil.
  apply app_nil_r.
Qed.

Lemma contentLines_cons_ws (c : N) (s : jsstring) :
  isWhiteSpace c = true -> contentLines (c :: s) = contentLines s.
Proof.
  intros Hc. unfold contentLines. simpl linesOf.
  destruct (c =? 10)%N; [reflexivity|].
  destruct (linesOf s) as [|l ls] eqn:Hs; [now apply linesOf_not_nil in Hs|].
  simpl. now rewrite trim_cons_ws.
Qed.

Lemma contentLines_snoc_ws (c : N) (s : jsstring) :
  isWhiteSpace c = true -> contentLines (s ++ [c]) = contentLines s.
Proof.
  intros Hc. destruct (c =? 10)%N eqn:Hnl.
  - apply N.eqb_eq in Hnl. subst c. apply contentLines_app_nl_end.
  - destruct (linesOf_snoc c s Hnl) as (init & lst & Hs & Hsc).
    unfold contentLines. rewrite Hs, Hsc, !map_app. simpl.
    now rewrite trim_snoc_ws.
Qed.

Lemma contentLines_app_ws (s w : jsstring) :
  forallb isWhiteSpace w = true -> contentLines (s ++ w) = contentLines s.
Proof.
  revert s; induction w as [|c w IH]; intros s; simpl.
  - now rewrite app_nil_r.
  - intros Hw. apply andb_true_iff in Hw as [Hc Hw].
    change (s ++ c :: w) with (s ++ [c] ++ w). rewrite app_assoc.
    rewrite IH by assumption. now apply contentLines_snoc_ws.
Qed.

Lemma contentLines_all_ws (w : jsstring) :
  forallb isWhiteSpace w = true -> contentLines w = [].
Proof. intros Hw. now rewrite <- (app_nil_l w), contentLines_app_ws. Qed.

Lemma contentLines_trimStart (s : jsstring) :
  contentLines (trimStart s) = contentLines s.
Proof.
  unfold trimStart. induction s as [|c s IH]; simpl; [reflexivity|].
  destruct (isWhiteSpace c) eqn:Hc; [|reflexivity].
  now rewrite contentLines_cons_ws.
Qed.

Lemma contentLines_trimEnd (s : jsstring) :
  contentLines (trimEnd s) = contentLines s.
Proof.
  destruct (trimEnd_decomp s) as (w & Hw & Hs).
  rewrite Hs at 2. now rewrite contentLines_app_ws.
Qed.

(** Trimming a text changes its layout only. *)
Lemma contentLines_trim (s : jsstring) :
  contentLines (trim s) = contentLines s.
Proof.
  unfold trim. now rewrite contentLines_trimEnd, contentLines_trimStart.
Qed.

Lemma contentLines_join_nl (l : list jsstring) :
  contentLines (join nl l) = flat_map contentLines l.
Proof.
  induction l as [|x [|y l] IH].
  - reflexivity.
  - simpl. now rewrite app_nil_r.
  - change (join nl (x :: y :: l)) with (x ++ nl ++ join nl (y :: l)).
    now rewrite contentLines_app_nl, IH.
Qed.

(** ** The document renderer *)

Lemma documentLines_cons (p : Paragraph) (ps : list Paragraph) :
  documentLines (p :: ps) = contentLines (paragraphText p) ++ documentLines ps.
Proof. reflexivity. Qed.

Lemma documentLines_app (ps qs : list Paragraph) :
  documentLines (ps ++ qs) = documentLines ps ++ documentLines qs.
Proof. apply flat_map_app. Qed.

Lemma documentLines_nil : documentLines [] = [].
Proof. reflexivity. Qed.

Lemma paragraphText_P (t : jsstring) : paragraphText (P t) = t.
Proof. apply app_nil_r. Qed.

Lemma paragraphText_H (lvl : HeadingLevel) (t : jsstring) :
  paragraphText (H lvl t) = t.
Proof. apply app_nil_r. Qed.

Lemma paragraphText_PRuns1 (run : TextRun) :
  paragraphText (PRuns [run]) = run_text run.
Proof. apply app_nil_r. Qed.

Lemma documentLines_map_P (l : list jsstring) :
  documentLines (map P l) = flat_map contentLines l.
Proof.
  induction l as [|x l IH]; [reflexivity|].
  simpl map. now rewrite documentLines_cons, paragraphText_P, IH.
Qed.

Lemma documentLines_flat_map {A} (f : A -> list Paragraph) (l : list A) :
  documentLines (flat_map f l) = flat_map (fun x => documentLines (f x)) l.
Proof.
  induction l as [|x l IH]; [reflexivity|].
  simpl. now rewrite documentLines_app, IH.
Qed.

Create Rewrite HintDb doc.
Create Rewrite HintDb txt.

#[local] Hint Rewrite
  documentLines_cons documentLines_app documentLines_nil
  paragraphText_P paragraphText_H paragraphText_PRuns1
  documentLines_map_P contentLines_nil app_nil_r : doc.

#[local] Hint Rewrite
  contentLines_nl_app contentLines_app_nl contentLines_app_nl_end
  contentLines_join_nl contentLines_nil app_nil_r : txt.

(** One experience entry: the text of the plain-text template and the
    paragraphs with the duration merged into the heading line show the
    same lines. *)
Lemma experience_entry_lines (e : Experience) :
  contentLines (experienceText e) = documentLines (experienceParagraphsMerged e).
Proof.
  unfold experienceText, experienceParagraphsMerged.
  autorewrite with txt. autorewrite with doc.
  now rewrite <- (map_map bulletLine P), documentLines_map_P.
Qed.

Lemma sectionHeadings_app (ps qs : list Paragraph) :
  sectionHeadings (ps ++ qs) = sectionHeadings ps ++ sectionHeadings qs.
Proof. apply flat_map_app. Qed.

Lemma sectionHeadings_entry (e : Experience) :
  sectionHeadings (experienceParagraphs e) = [].
Proof.
  unfold experienceParagraphs. rewrite !sectionHeadings_app. simpl.
  induction (bullets e) as [|b bs IHb]; [reflexivity | exact IHb].
Qed.

Lemma sectionHeadings_experience (l : list Experience) :
  sectionHeadings (flat_map experienceParagraphs l) = [].
Proof.
  induction l as [|e l IH]; [reflexivity|].
  cbn [flat_map]. now rewrite sectionHeadings_app, IH, sectionHeadings_entry.
Qed.

Lemma sectionHeadings_education (l : list Education) :
  sectionHeadings (map (fun e => P (educationLine e)) l) = [].
Proof. induction l as [|e l IH]; [reflexivity | exact IH]. Qed.

Lemma sectionHeadings_map_P (l : list jsstring) :
  sectionHeadings (map P l) = [].
Proof. induction l as [|e l IH]; [reflexivity | exact IH]. Qed.

(** The level-1 headings of the document, in order. *)
Lemma document_headings (r : RewrittenResume) :
  sectionHeadings (docChildren r) =
    [ lit "PROFESSIONAL SUMMARY"; lit "EXPERIENCE"; lit "EDUCATION";
      lit "SKILLS" ] ++
    match certifications r with
    | Some (_ :: _) => [ lit "CERTIFICATIONS" ]
    | _ => []
    end.
Proof.
  unfold docChildren. rewrite !sectionHeadings_app.
  rewrite sectionHeadings_experience, sectionHeadings_education.
  unfold certificationParagraphs.
  destruct (certifications r) as [[|c cs]|]; try reflexivity.
  simpl. change (P c :: map P cs) with (map P (c :: cs)).
  now rewrite sectionHeadings_map_P.
Qed.

(** The lines of the plain text are those of the aligned document. *)
Lemma plain_text_lines (r : RewrittenResume) :
  contentLines (plainText r) = documentLines (alignedChildren r).
Proof.
  unfold plainText, plainTextTemplate, alignedChildren,
    certificationParagraphsAlways.
  rewrite contentLines_trim.
  autorewrite with txt.
  autorewrite with doc.
  rewrite documentLines_flat_map.
  rewrite <- (map_map educationLine P), documentLines_map_P.
  rewrite !flat_map_concat_map, !map_map. simpl run_text.
  rewrite (map_ext _ _ experience_entry_lines).
  now rewrite <- !app_assoc.
Qed.

(** Bringing the code's document to the layout of the plain text gives
    [alignedChildren]. *)
Lemma mergeDurations_plain (a b : list Paragraph) :
  forallb (fun p => negb (hasBold p)) a = true ->
  mergeDurations (a ++ b) = a ++ mergeDurations b.
Proof.
  induction a as [|p a IH]; [reflexivity|]. simpl.
  intros Ha. apply andb_true_iff in Ha as [Hp Ha].
  apply negb_true_iff in Hp. rewrite Hp. now rewrite IH.
Qed.

Lemma mergeDurations_none (a : list Paragraph) :
  forallb (fun p => negb (hasBold p)) a = true -> mergeDurations a = a.
Proof.
  intros Ha. rewrite <- (app_nil_r a) at 1.
  rewrite mergeDurations_plain by assumption. apply app_nil_r.
Qed.

Lemma plain_map_P {A} (f : A -> jsstring) (l : list A) :
  forallb (fun p => negb (hasBold p)) (map (fun x => P (f x)) l) = true.
Proof. induction l as [|x l IH]; [reflexivity | exact IH]. Qed.

Lemma mergeDurations_entry (e : Experience) (rest : list Paragraph) :
  mergeDurations (experienceParagraphs e ++ rest)
  = experienceParagraphsMerged e ++ mergeDurations rest.
Proof.
  unfold experienceParagraphs, experienceParagraphsMerged.
  rewrite <- !app_assoc.
  change ([PRuns [BoldRun (titleCompany e)]; P (duration e)] ++
          map (fun b => P (bulletLine b)) (bullets e) ++ [P []] ++ rest)
    with (PRuns [BoldRun (titleCompany e)] :: P (duration e) ::
          (map (fun b => P (bulletLine b)) (bullets e) ++ [P []] ++ rest)).
  cbn [mergeDurations hasBold existsb par_children PRuns BoldRun run_bold orb].
  rewrite paragraphText_PRuns1, paragraphText_P. cbn [run_text BoldRun app].
  f_equal. rewrite (app_assoc _ [P []] rest).
  rewrite mergeDurations_plain; [now rewrite <- app_assoc|].
  rewrite forallb_app, plain_map_P. reflexivity.
Qed.

Lemma mergeDurations_experience (l : list Experience) (rest : list Paragraph) :
  mergeDurations (flat_map experienceParagraphs l ++ rest)
  = flat_map experienceParagraphsMerged l ++ mergeDurations rest.
Proof.
  induction l as [|e l IH]; [reflexivity|].
  cbn [flat_map]. rewrite <- !app_assoc. now rewrite mergeDurations_entry, IH.
Qed.

Lemma certificationParagraphs_not_bold (r : RewrittenResume) :
  forallb (fun p => negb (hasBold p)) (certificationParagraphs r) = true.
Proof.
  unfold certificationParagraphs.
  destruct (certifications r) as [[|c cs]|]; try reflexivity.
  apply (plain_map_P (fun x => x) (c :: cs)).
Qed.

(** The document with the durations merged. *)
Lemma mergeDurations_docChildren (r : RewrittenResume) :
  mergeDurations (docChildren r) =
  [ H TITLE (name r);
    PRuns [Run (contactLine r)];
    P [];
    H HEADING_1 (lit "PROFESSIONAL SUMMARY");
    P (summary r);
    P [];
    H HEADING_1 (lit "EXPERIENCE") ] ++
  flat_map experienceParagraphsMerged (experience r) ++
  [ H HEADING_1 (lit "EDUCATION") ] ++
  map (fun e => P (educationLine e)) (education r) ++
  [ P [];
    H HEADING_1 (lit "SKILLS");
    P (join (lit ", ") (skills r));
    P [] ] ++
  certificationParagraphs r.
Proof.
  unfold docChildren.
  rewrite mergeDurations_plain by reflexivity.
  rewrite mergeDurations_experience.
  rewrite mergeDurations_none; [reflexivity|].
  rewrite !forallb_app, plain_map_P, certificationParagraphs_not_bold.
  reflexivity.
Qed.

Lemma no_heading_map_P {A} (t : jsstring) (f : A -> jsstring) (l : list A) :
  existsb (isHeading1 t) (map (fun x => P (f x)) l) = false.
Proof. induction l as [|x l IH]; [reflexivity | exact IH]. Qed.

Lemma no_heading_merged (t : jsstring) (l : list Experience) :
  existsb (isHeading1 t) (flat_map experienceParagraphsMerged l) = false.
Proof.
  induction l as [|e l IH]; [reflexivity|].
  cbn [flat_map]. rewrite existsb_app, IH, orb_false_r.
  unfold experienceParagraphsMerged.
  rewrite !existsb_app, no_heading_map_P. reflexivity.
Qed.

Lemma alignDocument_docChildren (r : RewrittenResume) :
  alignDocument (docChildren r) = alignedChildren r.
Proof.
  unfold alignDocument, ensureCertifications.
  rewrite mergeDurations_docChildren.
  rewrite !existsb_app, no_heading_merged, no_heading_map_P.
  unfold alignedChildren, certificationParagraphsAlways,
    certificationParagraphs, certificationsOrEmpty.
  destruct (certifications r) as [[|c cs]|]; cbn [existsb orb map];
    rewrite ?app_nil_r; rewrite <- ?app_assoc; try reflexivity.
Qed.

(** ** Where a phrase can occur in the plain text *)

Lemma startsWith_sep (p : jsstring) (c : N) (a b : jsstring) :
  avoids c p = true -> startsWith p (a ++ c :: b) = startsWith p a.
Proof.
  revert a; induction p as [|x p IH]; intros a Hp; [reflexivity|].
  simpl in Hp. apply andb_true_iff in Hp as [Hx Hp].
  apply negb_true_iff in Hx. destruct a as [|y a]; simpl.
  - now rewrite Hx.
  - now rewrite IH.
Qed.

(** A code unit the phrase does not hold separates its occurrences. *)
Lemma includes_sep (p : jsstring) (c : N) (a b : jsstring) :
  avoids c p = true ->
  includes p (a ++ c :: b) = includes p a || includes p b.
Proof.
  intros Hp. induction a as [|y a IH].
  - change ([] ++ c :: b) with (c :: b). rewrite includes_cons.
    pose proof (startsWith_sep p c [] b Hp) as Hs.
    change ([] ++ c :: b) with (c :: b) in Hs. rewrite Hs.
    change (includes p []) with (startsWith p [] || false).
    now rewrite orb_false_r.
  - change ((y :: a) ++ c :: b) with (y :: (a ++ c :: b)).
    rewrite !includes_cons, IH.
    change (y :: (a ++ c :: b)) with ((y :: a) ++ c :: b).
    rewrite (startsWith_sep p c (y :: a) b Hp). apply orb_assoc.
Qed.

Lemma startsWith_snoc (p : jsstring) (c : N) (a : jsstring) :
  (last p c =? c)%N = false -> startsWith p (a ++ [c]) = startsWith p a.
Proof.
  revert a; induction p as [|x [|y p] IH]; intros a Hp.
  - simpl in Hp. now rewrite N.eqb_refl in Hp.
  - simpl in Hp. destruct a as [|z a]; simpl; [now rewrite Hp | reflexivity].
  - destruct a as [|z a].
    + simpl. apply andb_false_r.
    + change (startsWith (x :: y :: p) ((z :: a) ++ [c]))
        with ((x =? z)%N && startsWith (y :: p) (a ++ [c])).
      now rewrite (IH a Hp).
Qed.

Lemma includes_snoc (p : jsstring) (c : N) (a : jsstring) :
  (last p c =? c)%N = false -> includes p (a ++ [c]) = includes p a.
Proof.
  intros Hp. induction a as [|z a IH].
  - change ([] ++ [c]) with [c]. rewrite includes_cons.
    pose proof (startsWith_snoc p c [] Hp) as Hs.
    change ([] ++ [c]) with [c] in Hs. rewrite Hs.
    change (includes p []) with (startsWith p [] || false).
    now destruct (startsWith p []).
  - change ((z :: a) ++ [c]) with (z :: (a ++ [c])).
    rewrite !includes_cons, IH.
    change (z :: (a ++ [c])) with ((z :: a) ++ [c]).
    now rewrite (startsWith_snoc p c (z :: a) Hp).
Qed.

Lemma existsb_map_comp {A B} (f : B -> bool) (g : A -> B) (l : list A) :
  existsb f (map g l) = existsb (fun x => f (g x)) l.
Proof. induction l as [|x l IH]; [reflexivity | simpl; now rewrite IH]. Qed.

Lemma existsb_flat_map {A B} (f : B -> bool) (g : A -> list B) (l : list A) :
  existsb f (flat_map g l) = existsb (fun x => existsb f (g x)) l.
Proof.
  induction l as [|x l IH]; [reflexivity|].
  simpl. now rewrite existsb_app, IH.
Qed.

Lemma existsb_pointwise {A} (f g : A -> bool) (l : list A) :
  (forall x, f x = g x) -> existsb f l = existsb g l.
Proof.
  intros Hfg. induction l as [|x l IH]; [reflexivity|].
  simpl. now rewrite Hfg, IH.
Qed.

#[local] Notation "'hasPhrase'" := (includes availableUponRequest).

Lemma phrase_nil : hasPhrase [] = false.
Proof. reflexivity. Qed.

Lemma phrase_sep (c : N) (a b : jsstring) :
  avoids c availableUponRequest = true ->
  hasPhrase (a ++ c :: b) = hasPhrase a || hasPhrase b.
Proof. apply includes_sep. Qed.

Lemma phrase_space_l (b : jsstring) : hasPhrase (32%N :: b) = hasPhrase b.
Proof. reflexivity. Qed.

Lemma phrase_space_r (a : jsstring) : hasPhrase (a ++ [32%N]) = hasPhrase a.
Proof. now apply includes_snoc. Qed.

Lemma phrase_nl (a b : jsstring) :
  hasPhrase (a ++ nl ++ b) = hasPhrase a || hasPhrase b.
Proof. now apply phrase_sep. Qed.

Lemma phrase_nl_l (b : jsstring) : hasPhrase (nl ++ b) = hasPhrase b.
Proof. apply (phrase_nl [] b). Qed.

Lemma phrase_nl_r (a : jsstring) : hasPhrase (a ++ nl) = hasPhrase a.
Proof.
  rewrite <- (app_nil_r nl), phrase_nl, phrase_nil. apply orb_false_r.
Qed.

(** A separator written between two spaces, as [" | "] and [" — "]. *)
Lemma phrase_spaced (c : N) (a b : jsstring) :
  avoids c availableUponRequest = true ->
  hasPhrase (a ++ 32%N :: c :: 32%N :: b) = hasPhrase a || hasPhrase b.
Proof.
  intros Hc. change (a ++ 32%N :: c :: 32%N :: b)
    with (a ++ [32%N] ++ c :: 32%N :: b).
  rewrite app_assoc, (phrase_sep c _ _ Hc).
  now rewrite phrase_space_r, phrase_space_l.
Qed.

Lemma phrase_parenthesised (a b : jsstring) :
  hasPhrase (a ++ lit " (" ++ b ++ lit ")") = hasPhrase a || hasPhrase b.
Proof.
  change (a ++ lit " (" ++ b ++ lit ")")
    with (a ++ [32%N] ++ 40%N :: (b ++ 41%N :: [])).
  rewrite app_assoc, phrase_sep by reflexivity.
  rewrite phrase_space_r, phrase_sep by reflexivity.
  now rewrite phrase_nil, orb_false_r.
Qed.

Lemma phrase_join_nl (l : list jsstring) :
  hasPhrase (join nl l) = existsb hasPhrase l.
Proof.
  induction l as [|x [|y l] IH].
  - reflexivity.
  - simpl. now rewrite orb_false_r.
  - change (join nl (x :: y :: l)) with (x ++ nl ++ join nl (y :: l)).
    now rewrite phrase_nl, IH.
Qed.

Lemma phrase_join_comma (l : list jsstring) :
  hasPhrase (join (lit ", ") l) = existsb hasPhrase l.
Proof.
  induction l as [|x [|y l] IH].
  - reflexivity.
  - simpl. now rewrite orb_false_r.
  - change (join (lit ", ") (x :: y :: l))
      with (x ++ 44%N :: 32%N :: join (lit ", ") (y :: l)).
    rewrite phrase_sep by reflexivity. now rewrite phrase_space_l, IH.
Qed.

Lemma phrase_bulletLine (b : jsstring) : hasPhrase (bulletLine b) = hasPhrase b.
Proof.
  change (bulletLine b) with ([] ++ 8226%N :: 32%N :: b).
  rewrite phrase_sep by reflexivity. now rewrite phrase_space_l.
Qed.

Lemma phrase_contactLine (r : RewrittenResume) :
  hasPhrase (contactLine r)
  = hasPhrase (email r) || (hasPhrase (phone r) || hasPhrase (location r)).
Proof.
  change (contactLine r)
    with (email r ++ 32%N :: 124%N :: 32%N
            :: (phone r ++ 32%N :: 124%N :: 32%N :: location r)).
  now rewrite !phrase_spaced by reflexivity.
Qed.

Lemma phrase_titleCompany (e : Experience) :
  hasPhrase (titleCompany e) = hasPhrase (title e) || hasPhrase (company e).
Proof.
  change (titleCompany e)
    with (title e ++ 32%N :: 8212%N :: 32%N :: company e).
  now rewrite phrase_spaced by reflexivity.
Qed.

Lemma phrase_experienceText (e : Experience) :
  hasPhrase (experienceText e) = existsb hasPhrase (experienceFields e).
Proof.
  unfold experienceText, experienceFields.
  rewrite phrase_nl_l, phrase_nl, phrase_nl_r.
  rewrite phrase_parenthesised, phrase_titleCompany, phrase_join_nl.
  rewrite existsb_map_comp, (existsb_pointwise _ _ _ phrase_bulletLine).
  simpl. now rewrite <- !orb_assoc.
Qed.

Lemma phrase_educationLine (e : Education) :
  hasPhrase (educationLine e) = existsb hasPhrase (educationFields e).
Proof.
  change (educationLine e)
    with (degree e ++ 32%N :: 8212%N :: 32%N
            :: (institution e ++ lit " (" ++ edu_duration e ++ lit ")")).
  rewrite phrase_spaced by reflexivity. rewrite phrase_parenthesised.
  simpl. now rewrite orb_false_r.
Qed.

(** White space around a text holds no part of an occurrence: the
    phrase starts and ends with a letter. *)
Lemma phrase_ws_l (w s : jsstring) :
  forallb isWhiteSpace w = true -> hasPhrase (w ++ s) = hasPhrase s.
Proof.
  induction w as [|c w IH]; [reflexivity|]. simpl forallb.
  intros Hw. apply andb_true_iff in Hw as [Hc Hw].
  change ((c :: w) ++ s) with (c :: (w ++ s)).
  rewrite includes_cons, (IH Hw).
  replace (startsWith availableUponRequest (c :: w ++ s)) with false;
    [reflexivity|].
  symmetry. change (startsWith availableUponRequest (c :: w ++ s))
    with ((65 =? c)%N && startsWith (tl availableUponRequest) (w ++ s)).
  destruct (N.eqb_spec 65 c) as [<-|]; [discriminate | reflexivity].
Qed.

Lemma phrase_ws_r (s w : jsstring) :
  forallb isWhiteSpace w = true -> hasPhrase (s ++ w) = hasPhrase s.
Proof.
  revert s; induction w as [|c w IH]; intros s; [now rewrite app_nil_r|].
  simpl forallb. intros Hw. apply andb_true_iff in Hw as [Hc Hw].
  change (s ++ c :: w) with (s ++ [c] ++ w).
  rewrite app_assoc, (IH _ Hw). apply includes_snoc.
  change (last availableUponRequest c) with 116%N.
  destruct (N.eqb_spec 116 c) as [<-|]; [discriminate | reflexivity].
Qed.

Lemma phrase_trim (s : jsstring) : hasPhrase (trim s) = hasPhrase s.
Proof.
  destruct (dropWhile_decomp isWhiteSpace s) as (w1 & Hw1 & H1).
  fold (trimStart s) in H1.
  destruct (trimEnd_decomp (trimStart s)) as (w2 & Hw2 & H2).
  symmetry.
  transitivity (hasPhrase (w1 ++ trimStart s)); [now apply f_equal|].
  rewrite (phrase_ws_l _ _ Hw1).
  transitivity (hasPhrase (trimEnd (trimStart s) ++ w2));
    [now apply f_equal|].
  now rewrite (phrase_ws_r _ _ Hw2).
Qed.

(** The plain text holds the phrase exactly when one of the values it
    prints does. *)
Lemma phrase_in_plain_text (r : RewrittenResume) :
  hasPhrase (plainText r) = existsb hasPhrase (renderedFields r).
Proof.
  unfold plainText, plainTextTemplate. rewrite phrase_trim.
  repeat (rewrite phrase_nl_l || rewrite phrase_nl).
  rewrite phrase_contactLine, !phrase_join_nl, phrase_join_comma.
  rewrite !existsb_map_comp.
  rewrite (existsb_pointwise _ _ _ phrase_experienceText).
  rewrite (existsb_pointwise _ _ _ phrase_educationLine).
  unfold renderedFields.
  rewrite !existsb_app, !existsb_flat_map.
  change (hasPhrase (lit "PROFESSIONAL SUMMARY")) with false.
  change (hasPhrase (lit "EXPERIENCE")) with false.
  change (hasPhrase (lit "EDUCATION")) with false.
  change (hasPhrase (lit "SKILLS")) with false.
  change (hasPhrase (lit "CERTIFICATIONS")) with false.
  change (hasPhrase (lit "    ")) with false.
  change (hasPhrase nl) with false.
  simpl existsb. rewrite ?phrase_nil.
  rewrite ?orb_false_r, ?orb_false_l.
  now rewrite <- ?orb_assoc.
Qed.

(** *** C1 *)

(** C1, as the specification states it, fails on [sampleResume], whose
    [references] is the one-element list ["Available upon request"]:
    the plain text does not contain the phrase. *)
Lemma C1_phrase_is_not_rendered :
  references sampleResume = [RefString availableUponRequest] /\
  includes availableUponRequest (plainText sampleResume) = false.
Proof. split; [reflexivity | vm_compute; reflexivity]. Qed.

(** C1, amended. The plain-text rendering does not read the
    [references] field: whatever that field holds, the text is the one
    rendered with no references at all, so it shows no referee table;
    and the phrase "Available upon request" is in it exactly when it is
    in one of the values the template prints — name, email, phone,
    location, summary, the title, company, duration and bullets of an
    experience entry, the degree, institution and duration of an
    education entry, a skill or a certification. *)
Theorem C1_plain_text_ignores_references :
  forall (refs : list Reference) (r : RewrittenResume),
    plainText (set_references refs r) = plainText r /\
    plainText r = plainText (set_references [] r) /\
    includes availableUponRequest (plainText r)
    = existsb (includes availableUponRequest) (renderedFields r).
Proof.
  intros refs r. split; [reflexivity|]. split; [reflexivity|].
  apply phrase_in_plain_text.
Qed.

(** *** C2 *)

(** C2, as the specification states it, fails on [sampleResume]: once
    layout and markup are set aside, the plain text has the line
    "Engineer — Acme (2020)" where the document has the two lines
    "Engineer — Acme" and "2020", and the plain text has a
    CERTIFICATIONS label the document lacks. *)
Lemma C2_renderings_differ :
  contentLines (plainText sampleResume) <>
  documentLines (docChildren sampleResume) /\
  In (lit "CERTIFICATIONS") (contentLines (plainText sampleResume)) /\
  ~ In (lit "CERTIFICATIONS") (documentLines (docChildren sampleResume)) /\
  In (lit "2020") (documentLines (docChildren sampleResume)) /\
  ~ In (lit "2020") (contentLines (plainText sampleResume)).
Proof.
  vm_compute. repeat split.
  - discriminate.
  - intuition.
  - intuition discriminate.
  - intuition.
  - intuition discriminate.
Qed.

(** C2, amended. For every RewrittenResume the document has its level-1
    headings in the order PROFESSIONAL SUMMARY, EXPERIENCE, EDUCATION,
    SKILLS and then, when there are certifications, CERTIFICATIONS; and
    the plain text shows, line for line, the text of the paragraphs of
    that document — the list the code hands to the [docx] library —
    once (a) each paragraph with a bold run, the "title — company" of an
    experience entry, takes the paragraph after it, the duration, onto
    its own line in parentheses, and (b) a CERTIFICATIONS heading is
    added at the end where the list of certifications is empty or
    absent. Blank lines, surrounding white space, heading levels and
    bold are the only other differences. *)
Theorem C2_plain_text_matches_aligned_document :
  forall r : RewrittenResume,
    sectionHeadings (docChildren r) =
      [ lit "PROFESSIONAL SUMMARY"; lit "EXPERIENCE"; lit "EDUCATION";
        lit "SKILLS" ] ++
      match certifications r with
      | Some (_ :: _) => [ lit "CERTIFICATIONS" ]
      | _ => []
      end /\
    contentLines (plainText r)
    = documentLines (alignDocument (docChildren r)).
Proof.
  intros r. split; [apply document_headings|].
  rewrite alignDocument_docChildren. apply plain_text_lines.
Qed.

(** Where neither departure applies — no experience entry and at least
    one certification — the two renderings show the same lines. *)
Corollary renderings_agree_without_experience :
  forall r : RewrittenResume,
    experience r = [] ->
    (exists c cs, certifications r = Some (c :: cs)) ->
    contentLines (plainText r) = documentLines (docChildren r).
Proof.
  intros r Hexp (c & cs & Hcert).
  rewrite plain_text_lines.
  unfold alignedChildren, docChildren, certificationParagraphsAlways,
    certificationParagraphs, certificationsOrEmpty.
  now rewrite Hexp, Hcert.
Qed.

Lemma renderings_agree_without_experience_witness :
  contentLines (plainText sampleGraduate)
  = documentLines (docChildren sampleGraduate).
Proof.
  apply (renderings_agree_without_experience sampleGraduate).
  - reflexivity.
  - now exists (lit "First aid"), [].
Defined.

(** ** The AI reply parser *)

#[local] Arguments N.eqb : simpl never.

Lemma replaceFences_0 (c : N) (s : jsstring) :
  replaceFences (c :: s) 0 =
  if startsWith fenceJson (c :: s) then replaceFences s 6
  else if startsWith fence (c :: s) then replaceFences s 2
  else c :: replaceFences s 0.
Proof. reflexivity. Qed.

Lemma replaceFences_S (c : N) (s : jsstring) (k : nat) :
  replaceFences (c :: s) (S k) = replaceFences s k.
Proof. reflexivity. Qed.

Lemma startsWith_fence_cons (c : N) (s : jsstring) :
  startsWith fence (c :: s) = (backtick =? c)%N && startsWith twoTicks s.
Proof. reflexivity. Qed.

Lemma fenceJson_needs_fence (s : jsstring) :
  startsWith fence s = false -> startsWith fenceJson s = false.
Proof.
  intros Hs. destruct (startsWith fenceJson s) eqn:Hj; [|reflexivity].
  rewrite <- Hs. symmetry.
  now apply (startsWith_trans fence fenceJson s).
Qed.

(** A text with no fence marker is left as it is. *)
Lemma stripFences_no_fence (s : jsstring) :
  includes fence s = false -> stripFences s = s.
Proof.
  unfold stripFences. induction s as [|c s IH]; [reflexivity|].
  intros Hs. apply includes_cons_false in Hs as [Hc Hs].
  rewrite replaceFences_0, (fenceJson_needs_fence _ Hc), Hc.
  now rewrite IH.
Qed.

(** What the scan emits never opens with two backticks unless the text
    it scans does. *)
Ltac split_ticks :=
  repeat (simpl in *; unfold backtick in *;
          match goal with
          | H : (96 =? ?b)%N = _ |- context [(96 =? ?b)%N] => rewrite H
          | H : (96 =? ?b)%N = _, H' : context [(96 =? ?b)%N] |- _ =>
              rewrite H in H'
          | |- context [(96 =? ?b)%N] =>
              let H := fresh "Htick" in destruct (96 =? b)%N eqn:H
          end);
  simpl in *; try reflexivity; try discriminate.

Lemma replaceFences_two_ticks (s : jsstring) :
  startsWith twoTicks s = false ->
  startsWith twoTicks (replaceFences s 0) = false.
Proof.
  intros Hs. destruct s as [|d [|e [|g s]]]; split_ticks.
Qed.

(** No fence marker is left in the stripped text: removing a marker
    never brings the backticks around it together into a new one. *)
Lemma replaceFences_clean (s : jsstring) (k : nat) :
  includes fence (replaceFences s k) = false.
Proof.
  revert k; induction s as [|c s IH]; intros k; [reflexivity|].
  destruct k as [|k]; [|now rewrite replaceFences_S].
  rewrite replaceFences_0.
  destruct (startsWith fenceJson (c :: s)); [apply IH|].
  destruct (startsWith fence (c :: s)) eqn:Hc; [apply IH|].
  rewrite includes_cons, IH, orb_false_r.
  rewrite startsWith_fence_cons in Hc |- *.
  destruct (backtick =? c)%N; [|reflexivity].
  now apply replaceFences_two_ticks.
Qed.

(** A closing fence after a text with no fence: the scan gives the text
    back, also where the text ends in one or two backticks. *)
Lemma replaceFences_closing (body : jsstring) :
  includes fence body = false -> replaceFences (body ++ fence) 0 = body.
Proof.
  induction body as [|c b IH]; intros Hb; [reflexivity|].
  apply includes_cons_false in Hb as [Hc Hb]. specialize (IH Hb).
  rewrite <- IH at 2. clear IH Hb.
  destruct b as [|d [|e b]]; split_ticks;
    repeat match goal with
           | H : (96 =? _)%N = true |- _ => apply N.eqb_eq in H; subst
           end; reflexivity.
Qed.

Lemma replaceFences_opening_json (s : jsstring) :
  replaceFences (fenceJson ++ s) 0 = replaceFences s 0.
Proof. reflexivity. Qed.

Lemma replaceFences_opening (s : jsstring) :
  startsWith (lit "json") s = false ->
  replaceFences (fence ++ s) 0 = replaceFences s 0.
Proof.
  intros Hs. change (fence ++ s) with (backtick :: (twoTicks ++ s)).
  rewrite replaceFences_0.
  change (startsWith fenceJson (backtick :: twoTicks ++ s))
    with (startsWith (lit "json") s).
  now rewrite Hs.
Qed.

Lemma startsWith_app_r (p a b : jsstring) :
  startsWith p a = true -> startsWith p (a ++ b) = true.
Proof.
  revert a; induction p as [|x p IH]; intros [|y a]; simpl; try easy.
  intros Hp. apply andb_true_iff in Hp as [-> Hp]. now apply IH.
Qed.

Lemma includes_app_false_l (p a b : jsstring) :
  includes p (a ++ b) = false -> includes p a = false.
Proof.
  induction a as [|c a IH].
  - intros Hb. destruct p as [|x p]; [now destruct b|reflexivity].
  - change ((c :: a) ++ b) with (c :: (a ++ b)).
    intros Hab. apply includes_cons_false in Hab as [Hc Hab].
    rewrite includes_cons, (IH Hab), orb_false_r.
    destruct (startsWith p (c :: a)) eqn:Hp; [|reflexivity].
    rewrite <- Hc. symmetry. now apply (startsWith_app_r p (c :: a) b).
Qed.

Lemma includes_app_false_r (p a b : jsstring) :
  includes p (a ++ b) = false -> includes p b = false.
Proof.
  induction a as [|c a IH]; [easy|].
  change ((c :: a) ++ b) with (c :: (a ++ b)).
  intros Hab. apply includes_cons_false in Hab as [_ Hab]. auto.
Qed.

Lemma trimStart_decomp (s : jsstring) :
  exists w, forallb isWhiteSpace w = true /\ s = w ++ trimStart s.
Proof. apply dropWhile_decomp. Qed.

(** A trimmed text is a piece of the text: it holds no occurrence the
    text does not hold. *)
Lemma includes_trim_false (p s : jsstring) :
  includes p s = false -> includes p (trim s) = false.
Proof.
  intros Hs.
  destruct (trimStart_decomp s) as (w1 & _ & H1).
  destruct (trimEnd_decomp (trimStart s)) as (w2 & _ & H2).
  rewrite H1 in Hs. apply includes_app_false_r in Hs.
  rewrite H2 in Hs. now apply includes_app_false_l in Hs.
Qed.

Lemma dropWhile_idem {A} (f : A -> bool) (l : list A) :
  dropWhile f (dropWhile f l) = dropWhile f l.
Proof.
  induction l as [|x l IH]; [reflexivity|]. simpl.
  destruct (f x) eqn:Hx; [exact IH|]. simpl. now rewrite Hx.
Qed.

Lemma dropWhile_snoc_keep {A} (f : A -> bool) (l : list A) (c : A) :
  f c = false -> dropWhile f (l ++ [c]) = dropWhile f l ++ [c].
Proof.
  intros Hc. induction l as [|x l IH]; simpl.
  - now rewrite Hc.
  - now destruct (f x).
Qed.

Lemma trimEnd_cons_keep (c : N) (s : jsstring) :
  isWhiteSpace c = false -> trimEnd (c :: s) = c :: trimEnd s.
Proof.
  intros Hc. unfold trimEnd, trimStart. simpl.
  rewrite dropWhile_snoc_keep by assumption.
  now rewrite rev_app_distr.
Qed.

Lemma trim_idem (s : jsstring) : trim (trim s) = trim s.
Proof.
  unfold trim.
  assert (Hs : trimStart (trimEnd (trimStart s)) = trimEnd (trimStart s)).
  { unfold trimStart at 2 3.
    induction s as [|c s IH]; [reflexivity|]. simpl.
    destruct (isWhiteSpace c) eqn:Hc; [exact IH|].
    rewrite trimEnd_cons_keep by assumption.
    unfold trimStart. simpl. now rewrite Hc. }
  rewrite Hs. unfold trimEnd, trimStart.
  now rewrite rev_involutive, dropWhile_idem.
Qed.

(** ** The data-URL marker *)

Lemma splitFrom_0 (sep : jsstring) (c : N) (s cur : jsstring) :
  splitFrom sep (c :: s) 0 cur =
  if startsWith sep (c :: s)
  then rev cur :: splitFrom sep s (length sep - 1) []
  else splitFrom sep s 0 (c :: cur).
Proof. reflexivity. Qed.

(** Passing over [k] code units of a matched separator. *)
Lemma splitFrom_skip (sep : jsstring) (k : nat) (s cur : jsstring) :
  k <= length s -> splitFrom sep s k cur = splitFrom sep (skipn k s) 0 cur.
Proof.
  revert s; induction k as [|k IH]; intros s Hk; [reflexivity|].
  destruct s as [|c s]; simpl in Hk; [lia|].
  simpl. apply IH. lia.
Qed.

(** [split] cuts at the first occurrence, then goes on after it. *)
Lemma splitFrom_indexOf (sep s cur : jsstring) :
  sep <> [] ->
  splitFrom sep s 0 cur =
  match indexOf sep s with
  | None => [rev cur ++ s]
  | Some i =>
      (rev cur ++ firstn i s)
        :: splitFrom sep (skipn (i + length sep) s) 0 []
  end.
Proof.
  intros Hsep. revert cur; induction s as [|c s IH]; intros cur.
  - destruct sep as [|x sep]; [easy|]. simpl. now rewrite app_nil_r.
  - rewrite splitFrom_0. cbn [indexOf].
    destruct (startsWith sep (c :: s)) eqn:Hc.
    + destruct sep as [|x sep]; [easy|].
      apply startsWith_length in Hc. simpl in Hc.
      simpl. rewrite app_nil_r, Nat.sub_0_r.
      f_equal. apply splitFrom_skip. lia.
    + rewrite IH. destruct (indexOf sep s) as [i|]; simpl.
      * now rewrite <- app_assoc.
      * now rewrite <- app_assoc.
Qed.

Lemma indexOf_unfold (p s : jsstring) :
  indexOf p s =
  if startsWith p s then Some 0
  else match s with
       | [] => None
       | _ :: s' => option_map S (indexOf p s')
       end.
Proof. destruct s; reflexivity. Qed.

Lemma includes_indexOf (p s : jsstring) :
  includes p s = match indexOf p s with Some _ => true | None => false end.
Proof.
  induction s as [|c s IH].
  - simpl. destruct (startsWith p []); reflexivity.
  - rewrite includes_cons. cbn [indexOf].
    destruct (startsWith p (c :: s)); [reflexivity|].
    rewrite IH. simpl. now destruct (indexOf p s).
Qed.

(** The index [indexOf] returns is that of an occurrence, and no
    occurrence starts before it. *)
Lemma indexOf_first (p s : jsstring) (i : nat) :
  indexOf p s = Some i ->
  startsWith p (skipn i s) = true /\
  forall j, j < i -> startsWith p (skipn j s) = false.
Proof.
  revert i; induction s as [|c s IH]; intros i; cbn [indexOf].
  - destruct (startsWith p []) eqn:Hp; [|discriminate].
    intros [= <-]. split; [exact Hp | intros j Hj; lia].
  - destruct (startsWith p (c :: s)) eqn:Hp.
    + intros [= <-]. split; [exact Hp | intros j Hj; lia].
    + destruct (indexOf p s) as [i'|]; [|discriminate].
      intros [= <-]. destruct (IH i' eq_refl) as [Hi Hlt].
      split; [exact Hi|]. intros [|j] Hj; [exact Hp|].
      apply Hlt. lia.
Qed.

Lemma base64Marker_not_nil : base64Marker <> [].
Proof. discriminate. Qed.

(** The payload the routes decode is the segment after the first marker
    and before the second. *)
Lemma base64Data_segment (payload : jsstring) :
  base64Data payload = Some (markerSegment payload).
Proof.
  unfold base64Data, markerSegment, split.
  rewrite includes_indexOf.
  rewrite (splitFrom_indexOf _ payload [] base64Marker_not_nil).
  destruct (indexOf base64Marker payload) as [i|]; [|reflexivity].
  rewrite (splitFrom_indexOf _ _ [] base64Marker_not_nil).
  now destruct (indexOf base64Marker _).
Qed.

Lemma decodePayload_segment (E : Externals) (payload : jsstring) :
  decodePayload E payload = ret (Buffer_from E (markerSegment payload)).
Proof. unfold decodePayload. now rewrite base64Data_segment. Qed.

Lemma skipn_length_app {A} (a b : list A) : skipn (length a) (a ++ b) = b.
Proof. induction a as [|x a IH]; [reflexivity | exact IH]. Qed.

Lemma firstn_length_app {A} (a b : list A) : firstn (length a) (a ++ b) = a.
Proof. induction a as [|x a IH]; [reflexivity | simpl; now f_equal]. Qed.

Lemma base64Marker_eq :
  base64Marker = [98; 97; 115; 101; 54; 52; 44]%N.
Proof. reflexivity. Qed.

Ltac split_eqb :=
  repeat match goal with
         | |- context [(?a =? ?b)%N] => destruct (a =? b)%N eqn:?
         end;
  simpl in *; try reflexivity; try discriminate.

(** The marker has no proper overlap with itself: an occurrence cannot
    start in the text before a marker and run into it. *)
Lemma marker_no_straddle (x rest : jsstring) :
  x <> [] ->
  startsWith base64Marker x = false ->
  startsWith base64Marker (x ++ base64Marker ++ rest) = false.
Proof.
  rewrite base64Marker_eq. intros Hx Hs.
  destruct x as [|c1 [|c2 [|c3 [|c4 [|c5 [|c6 [|c7 x]]]]]]];
    [easy|..]; simpl in *; try exact Hs; split_eqb.
Qed.

(** Where the text before a marker holds none, that marker is the first
    occurrence. *)
Lemma indexOf_marker_app (a rest : jsstring) :
  includes base64Marker a = false ->
  indexOf base64Marker (a ++ base64Marker ++ rest) = Some (length a).
Proof.
  induction a as [|c a IH]; intros Ha.
  - change ([] ++ base64Marker ++ rest) with (base64Marker ++ rest).
    now rewrite indexOf_unfold, startsWith_app.
  - apply includes_cons_false in Ha as [Hc Ha].
    change ((c :: a) ++ base64Marker ++ rest)
      with (c :: (a ++ base64Marker ++ rest)).
    cbn [indexOf].
    change (c :: (a ++ base64Marker ++ rest))
      with ((c :: a) ++ base64Marker ++ rest).
    rewrite marker_no_straddle by easy.
    now rewrite (IH Ha).
Qed.

Lemma indexOf_none (p s : jsstring) :
  includes p s = false -> indexOf p s = None.
Proof. rewrite includes_indexOf. now destruct (indexOf p s). Qed.

Lemma markerSegment_none (p : jsstring) :
  includes base64Marker p = false -> markerSegment p = p.
Proof. intros Hp. unfold markerSegment. now rewrite indexOf_none. Qed.

Lemma skipn_marker (a b : jsstring) :
  skipn (length a + length base64Marker) (a ++ base64Marker ++ b) = b.
Proof.
  rewrite app_assoc, <- length_app. apply skipn_length_app.
Qed.

Lemma markerSegment_one (a b : jsstring) :
  includes base64Marker a = false ->
  includes base64Marker b = false ->
  markerSegment (a ++ base64Marker ++ b) = b.
Proof.
  intros Ha Hb. unfold markerSegment.
  rewrite indexOf_marker_app by assumption.
  rewrite skipn_marker. now rewrite indexOf_none.
Qed.

Lemma markerSegment_two (a b c : jsstring) :
  includes base64Marker a = false ->
  includes base64Marker b = false ->
  markerSegment (a ++ base64Marker ++ b ++ base64Marker ++ c) = b.
Proof.
  intros Ha Hb. unfold markerSegment.
  rewrite indexOf_marker_app by assumption.
  rewrite skipn_marker.
  rewrite indexOf_marker_app by assumption.
  apply firstn_length_app.
Qed.

(** *** C9 *)

(** C9. What the routes decode from an uploaded payload: the whole
    string when it holds no ["base64,"]; what follows the marker when it
    holds one; and when it holds a second one, only what lies between
    the first and the second — the rest is dropped. *)
Theorem C9_decoded_segment :
  forall (E : Externals) (p : jsstring),
    (includes base64Marker p = false ->
     decodePayload E p = ret (Buffer_from E p)) /\
    (forall a b,
        p = a ++ base64Marker ++ b ->
        includes base64Marker a = false ->
        includes base64Marker b = false ->
        decodePayload E p = ret (Buffer_from E b)) /\
    (forall a b c,
        p = a ++ base64Marker ++ b ++ base64Marker ++ c ->
        includes base64Marker a = false ->
        includes base64Marker b = false ->
        decodePayload E p = ret (Buffer_from E b)).
Proof.
  intros E p. rewrite decodePayload_segment. repeat split.
  - intros Hp. now rewrite markerSegment_none.
  - intros a b -> Ha Hb. now rewrite markerSegment_one.
  - intros a b c -> Ha Hb. now rewrite markerSegment_two.
Qed.

(** C9 at a bare payload, a data URL, and a data URL with a second
    marker and trailing data: each decodes the segment "YWJj", the bytes
    "abc". *)
Lemma C9_decoded_segment_witness :
  decodePayload plainEnv (lit "YWJj") = ret (list_byte_of_string "abc") /\
  decodePayload plainEnv (dataUrlPrefix ++ base64Marker ++ lit "YWJj")
    = ret (list_byte_of_string "abc") /\
  decodePayload plainEnv
    (dataUrlPrefix ++ base64Marker ++ lit "YWJj" ++ base64Marker ++ lit "QUJD")
    = ret (list_byte_of_string "abc").
Proof.
  split; [|split].
  - apply (proj1 (C9_decoded_segment plainEnv (lit "YWJj"))). reflexivity.
  - apply (proj1 (proj2 (C9_decoded_segment plainEnv _))
             dataUrlPrefix (lit "YWJj")); reflexivity.
  - apply (proj2 (proj2 (C9_decoded_segment plainEnv _))
             dataUrlPrefix (lit "YWJj") (lit "QUJD")); reflexivity.
Defined.

(** ** The AI reply parser, fence by fence *)

(** Up to the first fence marker the scan copies the text. *)
Lemma replaceFences_to_first (s : jsstring) (i : nat) :
  indexOf fence s = Some i ->
  replaceFences s 0 = firstn i s ++ replaceFences (skipn i s) 0.
Proof.
  revert i; induction s as [|c s IH]; intros i; rewrite indexOf_unfold.
  - discriminate.
  - destruct (startsWith fence (c :: s)) eqn:Hc.
    + now intros [= <-].
    + destruct (indexOf fence s) as [j|]; [|discriminate].
      intros [= <-].
      rewrite replaceFences_0, (fenceJson_needs_fence _ Hc), Hc.
      simpl. now rewrite (IH j eq_refl).
Qed.

(** At a fence marker the scan drops it, with a [json] tag directly
    behind it, and goes on. *)
Lemma replaceFences_at_fence (rest : jsstring) :
  replaceFences (fence ++ rest) 0 = replaceFences (afterFence rest) 0.
Proof.
  unfold afterFence. destruct (startsWith (lit "json") rest) eqn:Hj.
  - apply startsWith_true in Hj. rewrite Hj at 1.
    apply (replaceFences_opening_json (skipn 4 rest)).
  - now apply replaceFences_opening.
Qed.

(** The scan, from one fence marker to the next. *)
Lemma stripFences_unfold (text : jsstring) :
  stripFences text =
  match indexOf fence text with
  | None => text
  | Some i =>
      firstn i text
        ++ stripFences (afterFence (skipn (i + length fence) text))
  end.
Proof.
  destruct (indexOf fence text) as [i|] eqn:Hi.
  - unfold stripFences. rewrite (replaceFences_to_first _ _ Hi). f_equal.
    apply indexOf_first in Hi as [Hi _]. apply startsWith_true in Hi.
    rewrite skipn_skipn in Hi. rewrite (Nat.add_comm i).
    rewrite Hi at 1. apply replaceFences_at_fence.
  - apply stripFences_no_fence. rewrite includes_indexOf. now rewrite Hi.
Qed.

(** *** C5 *)

(** C5. The reply parser hands [JSON.parse] the reply with its fence
    markers removed and then trimmed. The removal works at every place
    of the text: a text with no triple backtick is left as it is;
    otherwise the text before the first triple backtick is kept, that
    marker goes together with a [json] tag directly behind it, and what
    follows is treated in the same way. So no triple backtick is left;
    a reply with no fence is parsed as its trimmed self; and so is that
    reply wrapped in an opening fence, with or without the [json] tag,
    and a closing one. *)
Theorem C5_reply_parser :
  forall (E : Externals) (text : jsstring),
    parseReply E text = fromLib (JSON_parse E (trim (stripFences text))) /\
    stripFences text =
      match indexOf fence text with
      | None => text
      | Some i =>
          firstn i text
            ++ stripFences (afterFence (skipn (i + length fence) text))
      end /\
    includes fence (stripFences text) = false /\
    (includes fence text = false ->
     parseReply E text = fromLib (JSON_parse E (trim text)) /\
     parseReply E text = parseReply E (trim text) /\
     parseReply E (fenceJson ++ text ++ fence)
     = fromLib (JSON_parse E (trim text)) /\
     (startsWith (lit "json") text = false ->
      parseReply E (fence ++ text ++ fence)
      = fromLib (JSON_parse E (trim text)))).
Proof.
  intros E text. split; [reflexivity|].
  split; [apply stripFences_unfold|]. split.
  - apply replaceFences_clean.
  - intros Hf. unfold parseReply, cleanJson. repeat split.
    + now rewrite (stripFences_no_fence _ Hf).
    + rewrite (stripFences_no_fence _ Hf).
      rewrite (stripFences_no_fence _ (includes_trim_false _ _ Hf)).
      now rewrite trim_idem.
    + unfold stripFences.
      now rewrite replaceFences_opening_json, replaceFences_closing.
    + intros Hj. unfold stripFences.
      rewrite replaceFences_opening, replaceFences_closing; trivial.
      destruct text as [|c text]; [reflexivity|].
      destruct (startsWith (lit "json") ((c :: text) ++ fence)) eqn:Hs;
        [|reflexivity].
      rewrite <- Hj. symmetry. revert Hs. clear.
      destruct text as [|c2 [|c3 [|c4 text]]]; simpl;
        rewrite ?andb_false_r; trivial; discriminate.
Qed.

(** C5 at the reply [{}] on a line of its own: bare or fenced, it is
    parsed as the empty object. *)
Lemma C5_reply_parser_witness :
  includes fence bareReply = false /\
  parseReply plainEnv bareReply = Ok (JObject []) /\
  parseReply plainEnv (fenceJson ++ bareReply ++ fence) = Ok (JObject []) /\
  parseReply plainEnv (fence ++ bareReply ++ fence) = Ok (JObject []).
Proof.
  split; [reflexivity|].
  destruct (C5_reply_parser plainEnv bareReply) as (_ & _ & _ & Hn).
  destruct (Hn eq_refl) as (Hp & _ & Hj & Hf).
  split; [rewrite Hp; reflexivity|].
  split; [rewrite Hj; reflexivity|].
  rewrite (Hf eq_refl). reflexivity.
Defined.

(** ** The extraction dispatcher *)

Lemma bind_ret_l {A B} (a : A) (k : A -> M B) : bind (ret a) k = k a.
Proof. unfold bind, ret. now destruct (k a). Qed.

Lemma pagesText_lib (pages : PdfDoc) (acc : jsstring) (e : exn) :
  pagesText pages acc = Throw e -> exists m, e = LibraryError m.
Proof.
  revert acc; induction pages as [|[items|m] pages IH]; intros acc; simpl.
  - discriminate.
  - apply IH.
  - intros [= <-]. now exists m.
Qed.

(** Each PDF extractor makes one [getDocument] call, with its options. *)
Lemma extractTextFromPDF_run (E : Externals) (buffer : Buffer) :
  extractTextFromPDF E buffer =
  ([GetDocument (primaryOptions E)],
   match getDocument E (primaryOptions E) buffer with
   | Returns pdfDoc => pagesText pdfDoc []
   | Throws m => Throw (LibraryError m)
   end).
Proof.
  unfold extractTextFromPDF, call, bind, liftR.
  now destruct (getDocument E (primaryOptions E) buffer).
Qed.

Lemma extractTextFromPDFFallback_run (E : Externals) (buffer : Buffer) :
  extractTextFromPDFFallback E buffer =
  ([GetDocument fallbackOptions],
   match getDocument E fallbackOptions buffer with
   | Returns pdfDoc => pagesText pdfDoc []
   | Throws m => Throw (LibraryError m)
   end).
Proof.
  unfold extractTextFromPDFFallback, call, bind, liftR.
  now destruct (getDocument E fallbackOptions buffer).
Qed.

Lemma extractTextFromPDF_throws (E : Externals) (buffer : Buffer) (e : exn) :
  snd (extractTextFromPDF E buffer) = Throw e -> exists m, e = LibraryError m.
Proof.
  rewrite extractTextFromPDF_run. simpl.
  destruct (getDocument E (primaryOptions E) buffer) as [d|m].
  - apply pagesText_lib.
  - intros [= <-]. now exists m.
Qed.

Lemma extractTextFromPDFFallback_throws (E : Externals) (buffer : Buffer)
      (e : exn) :
  snd (extractTextFromPDFFallback E buffer) = Throw e ->
  exists m, e = LibraryError m.
Proof.
  rewrite extractTextFromPDFFallback_run. simpl.
  destruct (getDocument E fallbackOptions buffer) as [d|m].
  - apply pagesText_lib.
  - intros [= <-]. now exists m.
Qed.

(** The PDF branch of the dispatcher, by the outcome of the primary
    extractor. *)
Lemma extractText_pdf (E : Externals) (buffer : Buffer)
      (hint : option jsstring) :
  detectMime E buffer hint = mimePdf ->
  extractText E buffer hint =
  match snd (extractTextFromPDF E buffer) with
  | Ok text => ([GetDocument (primaryOptions E)], Ok text)
  | Throw e =>
      if fontRelated e
      then ([GetDocument (primaryOptions E); GetDocument fallbackOptions],
            snd (extractTextFromPDFFallback E buffer))
      else ([GetDocument (primaryOptions E)], Throw e)
  end.
Proof.
  intros Hm. unfold extractText. rewrite Hm, jsEqb_refl.
  rewrite extractTextFromPDFFallback_run, extractTextFromPDF_run.
  unfold tryCatch, throw. simpl.
  destruct (match getDocument E (primaryOptions E) buffer with
            | Returns pdfDoc => pagesText pdfDoc []
            | Throws m => Throw (LibraryError m)
            end) as [text|e]; [reflexivity|].
  now destruct (fontRelated e).
Qed.

(** The plain-text branch. *)
Lemma extractText_txt (E : Externals) (buffer : Buffer)
      (hint : option jsstring) :
  jsEqb (detectMime E buffer hint) mimePdf = false ->
  jsEqb (detectMime E buffer hint) mimeDocx = false ->
  jsEqb (detectMime E buffer hint) mimeDoc = false ->
  extractText E buffer hint =
  match trim (Buffer_toString E buffer) with
  | [] => throw (NewError unsupportedMessage)
  | _ => ret (Buffer_toString E buffer)
  end.
Proof.
  intros Hp Hx Hd. unfold extractText. rewrite Hp, Hx, Hd. simpl.
  unfold extractTextFromTxt. now destruct (trim (Buffer_toString E buffer)).
Qed.

(** The only failure the dispatcher raises itself is the one for an
    unsupported file type; every other one comes from a library. *)
Lemma extractText_own_failure (E : Externals) (buffer : Buffer)
      (hint : option jsstring) (m : jsstring) :
  snd (extractText E buffer hint) = Throw (NewError m) ->
  m = unsupportedMessage /\
  jsEqb (detectMime E buffer hint) mimePdf = false /\
  jsEqb (detectMime E buffer hint) mimeDocx = false /\
  jsEqb (detectMime E buffer hint) mimeDoc = false /\
  trim (Buffer_toString E buffer) = [].
Proof.
  destruct (jsEqb (detectMime E buffer hint) mimePdf) eqn:Hp.
  - apply jsEqb_eq in Hp. rewrite (extractText_pdf _ _ _ Hp).
    destruct (snd (extractTextFromPDF E buffer)) as [text|e] eqn:He;
      [discriminate|].
    apply extractTextFromPDF_throws in He as [m' ->].
    destruct (fontRelated (LibraryError m')); simpl; [|discriminate].
    intros Hf. now apply extractTextFromPDFFallback_throws in Hf as [? ?].
  - destruct (jsEqb (detectMime E buffer hint) mimeDocx) eqn:Hx;
      [|destruct (jsEqb (detectMime E buffer hint) mimeDoc) eqn:Hd].
    + unfold extractText. rewrite Hp, Hx. simpl.
      now destruct (extractRawText E buffer).
    + unfold extractText. rewrite Hp, Hx, Hd. simpl.
      now destruct (extractRawText E buffer).
    + rewrite extractText_txt by assumption.
      destruct (trim (Buffer_toString E buffer)); simpl; [|discriminate].
      now intros [= <-].
Qed.

(** *** C6 *)

(** C6. When the content of the buffer is recognised — [file-type]
    returns a type, with its MIME string — that type decides the
    dispatch and the hint has no effect; the hint (or its default, the
    empty string) is the type only when nothing is recognised. *)
Theorem C6_content_before_hint :
  forall (E : Externals) (buffer : Buffer),
    (forall d h1 h2,
        fileTypeFromBuffer E buffer = Some d ->
        mime d <> [] ->
        detectMime E buffer h1 = mime d /\
        extractText E buffer h1 = extractText E buffer h2) /\
    (fileTypeFromBuffer E buffer = None ->
     forall h, detectMime E buffer (Some h) = h /\
               detectMime E buffer None = []).
Proof.
  intros E buffer. split.
  - intros d h1 h2 Hd Hm.
    assert (Hdet : forall h, detectMime E buffer h = mime d).
    { intros h. unfold detectMime. rewrite Hd. now destruct (mime d). }
    split; [apply Hdet|]. unfold extractText. now rewrite !Hdet.
  - intros Hn h. unfold detectMime. now rewrite Hn.
Qed.

(** C6 at two buffers: one with the PDF magic bytes goes to the PDF
    extractor whatever the hint; one with no known magic bytes takes the
    hint. *)
Lemma C6_content_before_hint_witness :
  (detectMime plainEnv samplePdf (Some (lit "text/plain")) = mimePdf /\
   extractText plainEnv samplePdf (Some (lit "text/plain"))
   = extractText plainEnv samplePdf None) /\
  (detectMime plainEnv sampleText (Some mimeDoc) = mimeDoc /\
   detectMime plainEnv sampleText None = []).
Proof.
  split.
  - apply (proj1 (C6_content_before_hint plainEnv samplePdf)
             {| ext := lit "pdf"; mime := mimePdf |}).
    + reflexivity.
    + discriminate.
  - apply (proj2 (C6_content_before_hint plainEnv sampleText)).
    reflexivity.
Defined.

(** *** C4 *)

(** C4. For a buffer classified as PDF whose primary extraction throws:
    when the message of what is thrown includes [standardFontDataUrl] or
    [font], the fallback extractor is called — a second [getDocument],
    with system fonts on and font faces off — and its result or error is
    the dispatcher's; otherwise there is no second call and what was
    thrown propagates. *)
Theorem C4_font_fallback :
  forall (E : Externals) (buffer : Buffer) (hint : option jsstring) (e : exn),
    detectMime E buffer hint = mimePdf ->
    snd (extractTextFromPDF E buffer) = Throw e ->
    extractText E buffer hint =
      (if fontRelated e
       then ([GetDocument (primaryOptions E); GetDocument fallbackOptions],
             snd (extractTextFromPDFFallback E buffer))
       else ([GetDocument (primaryOptions E)], Throw e)) /\
    useSystemFonts fallbackOptions = Some true /\
    disableFontFace fallbackOptions = Some true /\
    standardFontDataUrl fallbackOptions = None.
Proof.
  intros E buffer hint e Hm He.
  rewrite (extractText_pdf _ _ _ Hm), He. now repeat split.
Qed.

(** C4 at two environments: with a font error the fallback runs and its
    text is returned; with another error only the primary extractor is
    called. *)
Lemma C4_font_fallback_witness :
  extractText fontEnv samplePdf None
  = ([GetDocument (primaryOptions fontEnv); GetDocument fallbackOptions],
     Ok (lit "Ann Lee" ++ nl)) /\
  extractText plainEnv samplePdf None
  = ([GetDocument (primaryOptions plainEnv)],
     Throw (LibraryError (Some (lit "Invalid PDF structure")))).
Proof.
  split.
  - apply (C4_font_fallback fontEnv samplePdf None
             (LibraryError (Some (lit "Unable to load font data"))));
      reflexivity.
  - apply (C4_font_fallback plainEnv samplePdf None
             (LibraryError (Some (lit "Invalid PDF structure"))));
      reflexivity.
Defined.

(** ** The routes *)

Lemma tooShort_lt (text : jsstring) :
  length (trim text) < 10 -> tooShort text = true.
Proof.
  intros Hlt. destruct text as [|c text]; [reflexivity|].
  unfold tooShort. now apply Nat.ltb_lt.
Qed.

(** [/api/analyze-resume] once the payload is decoded, by the outcome of
    the extraction. *)
Lemma analyzeResume_extract_throws (E : Externals) (p : jsstring)
      (hint : option jsstring) (l : list Event) (e : exn) :
  p <> [] ->
  extractText E (Buffer_from E (markerSegment p)) hint = (l, Throw e) ->
  analyzeResume E {| resumeText := Some p; analyze_mimeType := hint |} =
  (l, failure500 (lit "AI analysis failed")
        (NewError (messageOr e (lit "Could not read file content.")))).
Proof.
  intros Hp He. destruct p as [|c p]; [easy|].
  unfold analyzeResume. cbn [resumeText analyze_mimeType].
  rewrite decodePayload_segment, bind_ret_l, He.
  unfold tryCatch, throw, bind, route. now rewrite app_nil_r.
Qed.

Lemma analyzeResume_too_short (E : Externals) (p : jsstring)
      (hint : option jsstring) (l : list Event) (text : jsstring) :
  p <> [] ->
  extractText E (Buffer_from E (markerSegment p)) hint = (l, Ok text) ->
  tooShort text = true ->
  analyzeResume E {| resumeText := Some p; analyze_mimeType := hint |} =
  (l, failure500 (lit "AI analysis failed") (NewError emptyContentMessage)).
Proof.
  intros Hp He Hs. destruct p as [|c p]; [easy|].
  unfold analyzeResume. cbn [resumeText analyze_mimeType].
  rewrite decodePayload_segment, bind_ret_l, He.
  unfold tryCatch, bind. rewrite Hs.
  unfold throw, route. now rewrite app_nil_r.
Qed.

(** [/api/rewrite-resume], likewise. *)
Lemma rewriteResume_extract_throws (E : Externals) (p : jsstring)
      (hint : option jsstring) (crit : Critique) (l : list Event) (e : exn) :
  p <> [] ->
  extractText E (Buffer_from E (markerSegment p)) hint = (l, Throw e) ->
  rewriteResume E {| resumeFile := Some p; rewrite_mimeType := hint;
                     critique := Some crit |} =
  (l, failure500 (lit "Rewrite failed") (NewError reReadMessage)).
Proof.
  intros Hp He. destruct p as [|c p]; [easy|].
  unfold rewriteResume. cbn [resumeFile rewrite_mimeType critique].
  rewrite decodePayload_segment, bind_ret_l, He.
  unfold tryCatch, throw, bind, route. now rewrite app_nil_r.
Qed.

Lemma rewriteResume_too_short (E : Externals) (p : jsstring)
      (hint : option jsstring) (crit : Critique) (l : list Event)
      (text : jsstring) :
  p <> [] ->
  extractText E (Buffer_from E (markerSegment p)) hint = (l, Ok text) ->
  tooShort text = true ->
  rewriteResume E {| resumeFile := Some p; rewrite_mimeType := hint;
                     critique := Some crit |} =
  (l, failure500 (lit "Rewrite failed") (NewError notEnoughTextMessage)).
Proof.
  intros Hp He Hs. destruct p as [|c p]; [easy|].
  unfold rewriteResume. cbn [resumeFile rewrite_mimeType critique].
  rewrite decodePayload_segment, bind_ret_l, He.
  unfold tryCatch, bind. rewrite Hs.
  unfold throw, route. now rewrite app_nil_r.
Qed.

(** *** C3 *)

(** C3, as the specification states it, fails in [plainEnv] on the three
    bytes "abc" with the hint [text/plain]: the text trims to fewer than
    10 code units and the dispatcher returns it. *)
Lemma C3_dispatcher_returns_short_text :
  extractText plainEnv sampleText (Some (lit "text/plain"))
  = ret (lit "abc") /\
  length (trim (lit "abc")) < 10.
Proof. split; [reflexivity | vm_compute; lia]. Qed.

(** C3, amended. The dispatcher never signals an empty-content failure:
    the one failure it raises itself is the unsupported-type one. Where
    the dispatcher returns a text whose trimmed length is under 10, it
    is the route that fails: [/api/analyze-resume] and
    [/api/rewrite-resume] both answer 500, with the details "The file
    appears to be empty or image-based (e.g. a scanned PDF)." and
    "Could not extract enough text from the resume.", and call neither
    the model nor the parser. *)
Theorem C3_short_text_fails_in_the_routes :
  forall (E : Externals) (p : jsstring) (hint : option jsstring)
         (crit : Critique) (l : list Event) (text : jsstring),
    p <> [] ->
    extractText E (Buffer_from E (markerSegment p)) hint = (l, Ok text) ->
    length (trim text) < 10 ->
    analyzeResume E {| resumeText := Some p; analyze_mimeType := hint |}
    = (l, failure500 (lit "AI analysis failed")
            (NewError emptyContentMessage)) /\
    rewriteResume E {| resumeFile := Some p; rewrite_mimeType := hint;
                       critique := Some crit |}
    = (l, failure500 (lit "Rewrite failed")
            (NewError notEnoughTextMessage)) /\
    status (failure500 (lit "AI analysis failed")
              (NewError emptyContentMessage)) = 500 /\
    (forall buffer m,
        snd (extractText E buffer hint) = Throw (NewError m) ->
        m = unsupportedMessage).
Proof.
  intros E p hint crit l text Hp He Hlt.
  apply tooShort_lt in Hlt. repeat split.
  - now apply analyzeResume_too_short with (text := text).
  - now apply rewriteResume_too_short with (text := text).
  - intros buffer m Hm. now apply extractText_own_failure in Hm.
Qed.

(** C3, amended, at the upload of the three bytes "abc": extraction
    succeeds, both routes answer 500. *)
Lemma C3_short_text_fails_in_the_routes_witness :
  analyzeResume plainEnv {| resumeText := Some shortUpload;
                            analyze_mimeType := Some (lit "text/plain") |}
  = ([], failure500 (lit "AI analysis failed")
           (NewError emptyContentMessage)) /\
  rewriteResume plainEnv {| resumeFile := Some shortUpload;
                            rewrite_mimeType := Some (lit "text/plain");
                            critique := Some sampleCritique |}
  = ([], failure500 (lit "Rewrite failed")
           (NewError notEnoughTextMessage)).
Proof.
  assert (Hp : shortUpload <> []) by discriminate.
  assert (He : extractText plainEnv
                 (Buffer_from plainEnv (markerSegment shortUpload))
                 (Some (lit "text/plain")) = ([], Ok (lit "abc")))
    by reflexivity.
  assert (Hlt : length (trim (lit "abc")) < 10) by (vm_compute; lia).
  destruct (C3_short_text_fails_in_the_routes plainEnv shortUpload
              (Some (lit "text/plain")) sampleCritique [] (lit "abc")
              Hp He Hlt) as (Ha & Hr & _).
  split; [exact Ha | exact Hr].
Defined.

(** *** C7 *)

(** C7. The dispatcher fails with its unsupported-type error exactly
    when the buffer is classified as neither PDF nor Word and its UTF-8
    decoding trims to the empty string; the message names PDF, DOCX, DOC
    and TXT; and both upload routes answer that failure with status
    500. *)
Theorem C7_unsupported_format :
  forall (E : Externals) (hint : option jsstring),
    (forall buffer,
        snd (extractText E buffer hint) = Throw (NewError unsupportedMessage)
        <->
        (detectMime E buffer hint <> mimePdf /\
         detectMime E buffer hint <> mimeDocx /\
         detectMime E buffer hint <> mimeDoc /\
         trim (Buffer_toString E buffer) = [])) /\
    (includes (lit "PDF") unsupportedMessage = true /\
     includes (lit "DOCX") unsupportedMessage = true /\
     includes (lit "DOC") unsupportedMessage = true /\
     includes (lit "TXT") unsupportedMessage = true) /\
    (forall (p : jsstring) (crit : Critique) (l : list Event),
        p <> [] ->
        extractText E (Buffer_from E (markerSegment p)) hint
        = (l, Throw (NewError unsupportedMessage)) ->
        let a := snd (analyzeResume E {| resumeText := Some p;
                                         analyze_mimeType := hint |}) in
        let w := snd (rewriteResume E {| resumeFile := Some p;
                                         rewrite_mimeType := hint;
                                         critique := Some crit |}) in
        status a = 500 /\
        a = failure500 (lit "AI analysis failed")
              (NewError unsupportedMessage) /\
        status w = 500).
Proof.
  intros E hint. split; [|split].
  - intros buffer. split.
    + intros Hf. apply extractText_own_failure in Hf
        as (_ & Hp & Hx & Hd & Ht).
      repeat split; trivial; intros Heq; apply jsEqb_eq in Heq; congruence.
    + intros (Hp & Hx & Hd & Ht).
      rewrite extractText_txt, Ht; trivial;
        apply not_true_is_false; intros Heq; now apply jsEqb_eq in Heq.
  - now vm_compute.
  - intros p crit l Hp He a w. subst a w.
    rewrite (analyzeResume_extract_throws _ _ _ _ _ Hp He).
    rewrite (rewriteResume_extract_throws _ _ _ crit _ _ Hp He).
    now repeat split.
Qed.

(** C7 at the upload of three spaces: not a PDF, not a Word file,
    nothing left after trimming; the dispatcher fails and the routes
    answer 500. *)
Lemma C7_unsupported_format_witness :
  snd (extractText plainEnv (list_byte_of_string "   ")
         (Some (lit "text/plain")))
  = Throw (NewError unsupportedMessage) /\
  status (snd (analyzeResume plainEnv
                 {| resumeText := Some blankUpload;
                    analyze_mimeType := Some (lit "text/plain") |})) = 500 /\
  status (snd (rewriteResume plainEnv
                 {| resumeFile := Some blankUpload;
                    rewrite_mimeType := Some (lit "text/plain");
                    critique := Some sampleCritique |})) = 500.
Proof.
  destruct (C7_unsupported_format plainEnv (Some (lit "text/plain")))
    as (Hiff & _ & Hroutes).
  split.
  - apply Hiff. split; [|split; [|split]];
      [discriminate | discriminate | discriminate | reflexivity].
  - assert (Hp : blankUpload <> []) by discriminate.
    destruct (Hroutes blankUpload sampleCritique [] Hp eq_refl)
      as (Ha & _ & Hw).
    split; [exact Ha | exact Hw].
Defined.



(** ** The download route *)

Lemma mapResult_map {A B C} (f : B -> result C) (g : A -> B) (h : A -> C)
      (l : list A) :
  (forall x, f (g x) = Ok (h x)) ->
  mapResult f (map g l) = Ok (map h l).
Proof.
  intros Hf. induction l as [|x l IH]; [reflexivity|].
  simpl. now rewrite Hf, IH.
Qed.

(** On a body in which every property is present the template of the
    route is the plain text of the resume, and its document is the
    document of the resume. *)
Lemma renderPlainText_typed (E : Externals) (r : RewrittenResume) :
  renderPlainText E (rawOfResume r) = Ok (plainText r).
Proof.
  unfold renderPlainText. cbn [rawOfResume raw_experience raw_education
    raw_skills member andThen].
  rewrite (mapResult_map _ rawOfExperience experienceText) by reflexivity.
  cbn [andThen]. rewrite map_map. reflexivity.
Qed.

Lemma rawDocChildren_typed (E : Externals) (r : RewrittenResume) :
  rawDocChildren E (rawOfResume r) = Ok (docChildren r).
Proof.
  unfold rawDocChildren. cbn [rawOfResume raw_experience raw_education
    raw_skills member andThen].
  rewrite (mapResult_map _ rawOfExperience experienceParagraphs)
    by reflexivity.
  cbn [andThen]. rewrite map_map, <- flat_map_concat_map. reflexivity.
Qed.




(** The route with a resume and a format: every way it can end. *)
Lemma downloadRoute_cases (E : Externals) (raw : RawResume) (fmt : jsstring) :
  fmt <> [] ->
  downloadRoute E {| req_rewrittenResume := Some raw; req_format := Some fmt |} =
  match renderPlainText E raw with
  | Throw e => ([], failure500 (lit "Download failed") e)
  | Ok text =>
      if jsEqb fmt (lit "txt") then
        ([], {| status := 200;
                headers := [ (contentType, lit "text/plain");
                             (contentDisposition, attachment (lit "txt")) ];
                body := BodyText text |})
      else if jsEqb fmt (lit "docx") || jsEqb fmt (lit "doc") then
        match rawDocChildren E raw with
        | Throw e => ([], failure500 (lit "Download failed") e)
        | Ok children =>
            let doc := {| sections := [ {| sec_children := children |} ] |} in
            match Packer_toBuffer E (Date_now E) doc with
            | Returns buffer =>
                ([PackerToBuffer doc],
                 {| status := 200;
                    headers := [ (contentType, mimeDocx);
                                 (contentDisposition, attachment fmt) ];
                    body := BodyBuffer buffer |})
            | Throws m =>
                ([PackerToBuffer doc],
                 failure500 (lit "Download failed") (LibraryError m))
            end
        end
      else if jsEqb fmt (lit "pdf") then
        ([], resJson 200 [ (lit "success", JBool true);
                           (lit "plainText", JString text) ])
      else
        ([], resJson 400 [ (lit "success", JBool false);
                           (lit "error", JString (lit "Unsupported format")) ])
  end.
Proof.
  intros Hf. destruct fmt as [|c f]; [easy|].
  unfold downloadRoute. cbn [req_rewrittenResume req_format]. cbv zeta.
  generalize (c :: f) as fmt. intros fmt.
  unfold liftR, bind.
  destruct (renderPlainText E raw) as [text|e]; [|reflexivity].
  destruct (jsEqb fmt (lit "txt")); [reflexivity|].
  destruct (jsEqb fmt (lit "docx") || jsEqb fmt (lit "doc")).
  - destruct (rawDocChildren E raw) as [children|e]; [|reflexivity].
    unfold call, route.
    now destruct (Packer_toBuffer E (Date_now E) _).
  - now destruct (jsEqb fmt (lit "pdf")).
Qed.

(** [downloadResume], the route on a checked resume, case by case. *)
Lemma downloadResume_cases (E : Externals) (r : RewrittenResume)
      (fmt : jsstring) :
  fmt <> [] ->
  downloadResume E {| rewrittenResume := Some r; format := Some fmt |} =
  if jsEqb fmt (lit "txt") then
    ([], {| status := 200;
            headers := [ (contentType, lit "text/plain");
                         (contentDisposition, attachment (lit "txt")) ];
            body := BodyText (plainText r) |})
  else if jsEqb fmt (lit "docx") || jsEqb fmt (lit "doc") then
    match Packer_toBuffer E (Date_now E) (buildDocument r) with
    | Returns buffer =>
        ([PackerToBuffer (buildDocument r)],
         {| status := 200;
            headers := [ (contentType, mimeDocx);
                         (contentDisposition, attachment fmt) ];
            body := BodyBuffer buffer |})
    | Throws m =>
        ([PackerToBuffer (buildDocument r)],
         failure500 (lit "Download failed") (LibraryError m))
    end
  else if jsEqb fmt (lit "pdf") then
    ([], resJson 200 [ (lit "success", JBool true);
                       (lit "plainText", JString (plainText r)) ])
  else
    ([], resJson 400 [ (lit "success", JBool false);
                       (lit "error", JString (lit "Unsupported format")) ]).
Proof.
  intros Hf. destruct fmt as [|c f]; [easy|].
  unfold downloadResume. cbn [rewrittenResume format]. cbv zeta.
  generalize (c :: f) as fmt. intros fmt.
  destruct (jsEqb fmt (lit "txt")); [reflexivity|].
  destruct (jsEqb fmt (lit "docx") || jsEqb fmt (lit "doc")).
  - unfold call, bind, route.
    now destruct (Packer_toBuffer E (Date_now E) (buildDocument r)).
  - now destruct (jsEqb fmt (lit "pdf")).
Qed.

(** On a request whose resume has every property, the route is
    [downloadResume]. *)
Lemma downloadRoute_typed (E : Externals) (req : DownloadBody) :
  downloadRoute E (rawOfRequest req) = downloadResume E req.
Proof.
  destruct req as [[r|] [[|c f]|]]; try reflexivity.
  unfold rawOfRequest. cbn [rewrittenResume format option_map].
  rewrite downloadRoute_cases, downloadResume_cases by easy.
  now rewrite renderPlainText_typed, rawDocChildren_typed.
Qed.

(** *** C8 *)




(** *** C10 *)

(** C10, as the specification states it, fails in [plainEnv], whose
    packer writes the reading of the clock into the archive as the
    [docx] packer does: the same resume asked for as ["doc"] at one
    time and as ["docx"] at another is sent in two buffers that are not
    the same bytes. *)
Lemma C10_buffers_differ_in_time :
  body (snd (downloadRoute (atTime 1000 plainEnv)
               {| req_rewrittenResume := Some (rawOfResume sampleResume);
                  req_format := Some (lit "doc") |}))
  <>
  body (snd (downloadRoute (atTime 2000 plainEnv)
               {| req_rewrittenResume := Some (rawOfResume sampleResume);
                  req_format := Some (lit "docx") |})).
Proof. vm_compute. discriminate. Qed.

(** C10, amended. For every RewrittenResume a request with format
    ["doc"] and one with format ["docx"] hand the same document to the
    packer; each sends the buffer the packer makes of that document at
    the time of its call, with the Office Open XML content type, or
    answers 500 when the packer throws; and the two answers name the
    attachment with their own extension. The two buffers are the same
    bytes where the packer gives the same result at both times, as when
    both requests are served at one reading of the clock. *)
Theorem C10_doc_and_docx :
  forall (E : Externals) (r : RewrittenResume) (t1 t2 : N),
    let doc := buildDocument r in
    let request fmt :=
      {| req_rewrittenResume := Some (rawOfResume r);
         req_format := Some fmt |} in
    let answer fmt packed :=
      ([PackerToBuffer doc],
       match packed with
       | Returns buffer =>
           {| status := 200;
              headers := [ (contentType, mimeDocx);
                           (contentDisposition, attachment fmt) ];
              body := BodyBuffer buffer |}
       | Throws m => failure500 (lit "Download failed") (LibraryError m)
       end) in
    downloadRoute (atTime t1 E) (request (lit "doc"))
    = answer (lit "doc") (Packer_toBuffer E t1 doc) /\
    downloadRoute (atTime t2 E) (request (lit "docx"))
    = answer (lit "docx") (Packer_toBuffer E t2 doc) /\
    (Packer_toBuffer E t1 doc = Packer_toBuffer E t2 doc ->
     body (snd (downloadRoute (atTime t1 E) (request (lit "doc"))))
     = body (snd (downloadRoute (atTime t2 E) (request (lit "docx"))))).
Proof.
  intros E r t1 t2 doc request answer. subst doc request answer.
  assert (Hd : forall t fmt,
             fmt = lit "doc" \/ fmt = lit "docx" ->
             downloadRoute (atTime t E)
               {| req_rewrittenResume := Some (rawOfResume r);
                  req_format := Some fmt |}
             = ([PackerToBuffer (buildDocument r)],
                match Packer_toBuffer E t (buildDocument r) with
                | Returns buffer =>
                    {| status := 200;
                       headers := [ (contentType, mimeDocx);
                                    (contentDisposition, attachment fmt) ];
                       body := BodyBuffer buffer |}
                | Throws m =>
                    failure500 (lit "Download failed") (LibraryError m)
                end)).
  { intros t fmt Hf.
    rewrite downloadRoute_cases by (destruct Hf; subst; discriminate).
    rewrite renderPlainText_typed, rawDocChildren_typed.
    cbn [atTime Date_now Packer_toBuffer]. fold (buildDocument r).
    destruct Hf; subst fmt; simpl;
      now destruct (Packer_toBuffer E t (buildDocument r)). }
  cbv beta. rewrite !Hd by auto. split; [reflexivity|]. split; [reflexivity|].
  intros Hp. rewrite Hp. simpl.
  now destruct (Packer_toBuffer E t2 (buildDocument r)).
Qed.

(** C10, amended, at the sample resume served twice at one reading of
    the clock: the two buffers are the same bytes. *)
Lemma C10_doc_and_docx_witness :
  body (snd (downloadRoute (atTime 1000 plainEnv)
               {| req_rewrittenResume := Some (rawOfResume sampleResume);
                  req_format := Some (lit "doc") |}))
  = body (snd (downloadRoute (atTime 1000 plainEnv)
                 {| req_rewrittenResume := Some (rawOfResume sampleResume);
                    req_format := Some (lit "docx") |})).
Proof.
  apply (proj2 (proj2 (C10_doc_and_docx plainEnv sampleResume 1000 1000))).
  reflexivity.
Defined.

(* ================================================================== *)
(** * Part III. Further properties of the code                         *)
(* ================================================================== *)

(** ** The PDF extractors *)

Lemma pagesText_all (pages : list (list jsstring)) (acc : jsstring) :
  pagesText (map Returns pages) acc = Ok (acc ++ concat (map pageLine pages)).
Proof.
  revert acc; induction pages as [|items pages IH]; intros acc; simpl.
  - now rewrite app_nil_r.
  - rewrite IH. unfold pageLine. now rewrite <- !app_assoc.
Qed.

Lemma pagesText_first_failure (good : list (list jsstring))
      (m : option jsstring) (rest : PdfDoc) (acc : jsstring) :
  pagesText (map Returns good ++ Throws m :: rest) acc
  = Throw (LibraryError m).
Proof.
  revert acc; induction good as [|items good IH]; intros acc; simpl.
  - reflexivity.
  - apply IH.
Qed.

(** X1. When every page of the loaded document yields its text items,
    the primary extractor returns, for the pages in order, the items of
    each page joined by single spaces and followed by a line feed; it
    makes the one [getDocument] call. *)
Theorem X1_pdf_text_of_pages :
  forall (E : Externals) (buffer : Buffer) (pages : list (list jsstring)),
    getDocument E (primaryOptions E) buffer = Returns (map Returns pages) ->
    extractTextFromPDF E buffer
    = ([GetDocument (primaryOptions E)], Ok (concat (map pageLine pages))).
Proof.
  intros E buffer pages Hd.
  now rewrite extractTextFromPDF_run, Hd, pagesText_all.
Qed.

Lemma X1_pdf_text_of_pages_witness :
  extractTextFromPDF readableEnv samplePdf
  = ([GetDocument (primaryOptions readableEnv)], Ok (lit "Ann Lee" ++ nl)).
Proof.
  apply (X1_pdf_text_of_pages readableEnv samplePdf [[lit "Ann"; lit "Lee"]]).
  reflexivity.
Defined.

(** X2. When a page cannot be read, the extractor throws what that page
    threw: the text of the pages before it is lost and the pages after
    it are not looked at. *)
Theorem X2_pdf_page_failure :
  forall (E : Externals) (buffer : Buffer) (good : list (list jsstring))
         (m : option jsstring) (rest : PdfDoc),
    getDocument E (primaryOptions E) buffer
    = Returns (map Returns good ++ Throws m :: rest) ->
    extractTextFromPDF E buffer
    = ([GetDocument (primaryOptions E)], Throw (LibraryError m)).
Proof.
  intros E buffer good m rest Hd.
  now rewrite extractTextFromPDF_run, Hd, pagesText_first_failure.
Qed.

Lemma X2_pdf_page_failure_witness :
  extractTextFromPDF tornEnv samplePdf
  = ([GetDocument (primaryOptions tornEnv)],
     Throw (LibraryError (Some (lit "page 2 is damaged")))).
Proof.
  apply (X2_pdf_page_failure tornEnv samplePdf [[lit "Ann"]]
           (Some (lit "page 2 is damaged")) [Returns [lit "Lee"]]).
  reflexivity.
Defined.

(** ** The dispatcher, branch by branch *)

Lemma detectMime_neq (m n : jsstring) : m <> n -> jsEqb m n = false.
Proof.
  intros Hn. apply not_true_is_false. intros He. now apply jsEqb_eq in He.
Qed.

(** X4. For a buffer classified as PDF whose primary extraction
    succeeds, the dispatcher returns that text as it is — whatever its
    length — after the one [getDocument] call; the fallback is not
    tried. *)
Theorem X4_pdf_success :
  forall (E : Externals) (buffer : Buffer) (hint : option jsstring)
         (text : jsstring),
    detectMime E buffer hint = mimePdf ->
    snd (extractTextFromPDF E buffer) = Ok text ->
    extractText E buffer hint = ([GetDocument (primaryOptions E)], Ok text).
Proof.
  intros E buffer hint text Hm Ht.
  now rewrite (extractText_pdf _ _ _ Hm), Ht.
Qed.

Lemma X4_pdf_success_witness :
  extractText readableEnv samplePdf None
  = ([GetDocument (primaryOptions readableEnv)], Ok (lit "Ann Lee" ++ nl)).
Proof.
  apply (X4_pdf_success readableEnv samplePdf None); reflexivity.
Defined.

Lemma extractText_word (E : Externals) (buffer : Buffer)
      (hint : option jsstring) :
  detectMime E buffer hint = mimeDocx \/ detectMime E buffer hint = mimeDoc ->
  extractText E buffer hint
  = ([ExtractRawText], fromLib (extractRawText E buffer)).
Proof.
  intros [Hm|Hm]; unfold extractText; rewrite Hm; reflexivity.
Qed.

(** X5. For a buffer classified as a Word document, by either of the two
    MIME types, the dispatcher makes the one call to [mammoth] and
    returns its raw text, or throws what it threw; the text is not
    decoded as UTF-8 and not tested for emptiness. *)
Theorem X5_word_branch :
  forall (E : Externals) (buffer : Buffer) (hint : option jsstring),
    detectMime E buffer hint = mimeDocx \/ detectMime E buffer hint = mimeDoc ->
    extractText E buffer hint
    = ([ExtractRawText], fromLib (extractRawText E buffer)).
Proof.
  intros E buffer hint Hm. now apply extractText_word.
Qed.

Lemma X5_word_branch_witness :
  extractText plainEnv sampleText (Some mimeDoc)
  = ([ExtractRawText], Ok (lit "abc")).
Proof.
  apply (X5_word_branch plainEnv sampleText (Some mimeDoc)).
  right. reflexivity.
Defined.

(** X6. For a buffer classified as neither PDF nor Word whose UTF-8
    decoding does not trim to the empty string, the dispatcher — once
    [file-type] has sniffed the content, as on every run — returns the
    decoding unchanged, untrimmed, and calls neither [pdfjs] nor
    [mammoth]. *)
Theorem X6_plain_text_unchanged :
  forall (E : Externals) (buffer : Buffer) (hint : option jsstring),
    detectMime E buffer hint <> mimePdf ->
    detectMime E buffer hint <> mimeDocx ->
    detectMime E buffer hint <> mimeDoc ->
    trim (Buffer_toString E buffer) <> [] ->
    extractText E buffer hint = ([], Ok (Buffer_toString E buffer)).
Proof.
  intros E buffer hint Hp Hx Hd Ht.
  rewrite extractText_txt by now apply detectMime_neq.
  now destruct (trim (Buffer_toString E buffer)).
Qed.

Lemma X6_plain_text_unchanged_witness :
  extractText plainEnv paddedText (Some (lit "text/plain"))
  = ([], Ok (lit "  John Doe  ")).
Proof.
  apply (X6_plain_text_unchanged plainEnv paddedText
           (Some (lit "text/plain"))); discriminate.
Defined.

(** The logged calls of the dispatcher: none, one to [mammoth], one to
    [getDocument], or the two [getDocument] calls of the fallback. *)
Lemma extractText_log (E : Externals) (buffer : Buffer)
      (hint : option jsstring) :
  let log := fst (extractText E buffer hint) in
  log = [] \/ log = [ExtractRawText] \/
  log = [GetDocument (primaryOptions E)] \/
  log = [GetDocument (primaryOptions E); GetDocument fallbackOptions].
Proof.
  simpl. destruct (jsEqb (detectMime E buffer hint) mimePdf) eqn:Hp.
  - apply jsEqb_eq in Hp. rewrite (extractText_pdf _ _ _ Hp).
    destruct (snd (extractTextFromPDF E buffer)) as [text|e]; simpl; auto.
    destruct (fontRelated e); simpl; auto.
  - destruct (jsEqb (detectMime E buffer hint) mimeDocx) eqn:Hx;
      [|destruct (jsEqb (detectMime E buffer hint) mimeDoc) eqn:Hd].
    + apply jsEqb_eq in Hx. rewrite extractText_word by auto. simpl. auto.
    + apply jsEqb_eq in Hd. rewrite extractText_word by auto. simpl. auto.
    + rewrite extractText_txt by assumption.
      destruct (trim (Buffer_toString E buffer)); simpl; auto.
Qed.


(** ** The uploaded payload *)

Lemma includes_nil_false (p : jsstring) : p <> [] -> includes p [] = false.
Proof. now destruct p. Qed.

(** No occurrence lies before the first one. *)
Lemma firstn_indexOf_clean (p s : jsstring) (i : nat) :
  p <> [] -> indexOf p s = Some i -> includes p (firstn i s) = false.
Proof.
  intros Hp. revert i; induction s as [|c s IH]; intros i.
  - rewrite indexOf_unfold. destruct p as [|x p]; [easy|]. discriminate.
  - rewrite indexOf_unfold.
    destruct (startsWith p (c :: s)) eqn:Hc.
    + intros [= <-]. now apply includes_nil_false.
    + destruct (indexOf p s) as [j|]; [|discriminate].
      intros [= <-]. simpl firstn.
      rewrite includes_cons, (IH j eq_refl), orb_false_r.
      destruct (startsWith p (c :: firstn j s)) eqn:Hf; [|reflexivity].
      rewrite <- Hc. symmetry.
      rewrite <- (firstn_skipn j s) at 1.
      now apply (startsWith_app_r p (c :: firstn j s) (skipn j s)).
Qed.

Lemma markerSegment_clean (p : jsstring) :
  includes base64Marker (markerSegment p) = false.
Proof.
  unfold markerSegment.
  destruct (indexOf base64Marker p) as [i|] eqn:Hi.
  - destruct (indexOf base64Marker (skipn _ p)) as [j|] eqn:Hj.
    + now apply firstn_indexOf_clean.
    + rewrite includes_indexOf. now rewrite Hj.
  - rewrite includes_indexOf. now rewrite Hi.
Qed.

(** X8. Decoding an uploaded payload never fails on the marker: under
    the guard [includes('base64,')] the element [split('base64,')[1]]
    always exists, so [Buffer.from] is never given [undefined]; and the
    string it is given never holds the marker. *)
Theorem X8_payload_always_decodes :
  forall (E : Externals) (payload : jsstring),
    exists d,
      base64Data payload = Some d /\
      decodePayload E payload = ret (Buffer_from E d) /\
      includes base64Marker d = false.
Proof.
  intros E payload. exists (markerSegment payload). repeat split.
  - apply base64Data_segment.
  - apply decodePayload_segment.
  - apply markerSegment_clean.
Qed.

Lemma splitFrom_not_nil (sep s : jsstring) (k : nat) (cur : jsstring) :
  splitFrom sep s k cur <> [].
Proof.
  revert k cur; induction s as [|c s IH]; intros k cur; simpl; [easy|].
  destruct k; [|apply IH].
  destruct (startsWith sep (c :: s)); [easy | apply IH].
Qed.

Lemma join_cons (sep x : jsstring) (l : list jsstring) :
  l <> [] -> join sep (x :: l) = x ++ sep ++ join sep l.
Proof. now destruct l. Qed.

(** The occurrence [indexOf] finds, cut out of the text. *)
Lemma indexOf_cut (p s : jsstring) (i : nat) :
  indexOf p s = Some i ->
  s = firstn i s ++ p ++ skipn (i + length p) s.
Proof.
  intros Hi. apply indexOf_first in Hi as [Hi _].
  apply startsWith_true in Hi.
  rewrite skipn_skipn in Hi. rewrite (Nat.add_comm i).
  rewrite <- Hi. symmetry. apply firstn_skipn.
Qed.

Lemma indexOf_bound (p s : jsstring) (i : nat) :
  indexOf p s = Some i -> i + length p <= length s.
Proof.
  revert i; induction s as [|c s IH]; intros i; rewrite indexOf_unfold.
  - destruct (startsWith p []) eqn:Hp; [|discriminate].
    intros [= <-]. now apply startsWith_length in Hp.
  - destruct (startsWith p (c :: s)) eqn:Hp.
    + intros [= <-]. now apply startsWith_length in Hp.
    + destruct (indexOf p s) as [j|]; [|discriminate].
      intros [= <-]. specialize (IH j eq_refl). simpl. lia.
Qed.

Lemma splitFrom_join (sep : jsstring) (n : nat) :
  sep <> [] ->
  forall s cur,
    length s <= n -> join sep (splitFrom sep s 0 cur) = rev cur ++ s.
Proof.
  intros Hsep. induction n as [|n IH]; intros s cur Hn;
    rewrite (splitFrom_indexOf _ _ _ Hsep);
    destruct (indexOf sep s) as [i|] eqn:Hi; try reflexivity.
  - apply indexOf_bound in Hi. destruct sep; [easy|]. simpl in Hi. lia.
  - rewrite join_cons by apply splitFrom_not_nil.
    pose proof (indexOf_bound _ _ _ Hi) as Hb.
    rewrite IH.
    + simpl rev. rewrite <- app_assoc. f_equal. simpl.
      symmetry. now apply indexOf_cut.
    + rewrite length_skipn. destruct sep; [easy|]. simpl length in *. lia.
Qed.

(** [split] cuts the text at every separator and loses nothing else. *)
Lemma split_segments_clean (sep : jsstring) (n : nat) :
  sep <> [] ->
  forall s,
    length s <= n ->
    Forall (fun seg => includes sep seg = false) (splitFrom sep s 0 []).
Proof.
  intros Hsep. induction n as [|n IH]; intros s Hn;
    rewrite (splitFrom_indexOf _ _ _ Hsep);
    destruct (indexOf sep s) as [i|] eqn:Hi; simpl.
  - apply indexOf_bound in Hi. destruct sep; [easy|]. simpl in Hi. lia.
  - constructor; [|constructor]. rewrite includes_indexOf. now rewrite Hi.
  - pose proof (indexOf_bound _ _ _ Hi) as Hb. constructor.
    + now apply firstn_indexOf_clean.
    + apply IH. rewrite length_skipn. destruct sep; [easy|].
      simpl length in *. lia.
  - constructor; [|constructor]. rewrite includes_indexOf. now rewrite Hi.
Qed.

(** X9. [split] on a non-empty separator loses nothing but the
    separators: joining the segments with the separator gives the string
    back, and no segment holds the separator. *)
Theorem X9_split_join :
  forall (sep s : jsstring),
    sep <> [] ->
    join sep (split sep s) = s /\
    Forall (fun seg => includes sep seg = false) (split sep s).
Proof.
  intros sep s Hsep. unfold split. split.
  - now apply (splitFrom_join sep (length s) Hsep s []).
  - now apply (split_segments_clean sep (length s) Hsep s).
Qed.

Lemma X9_split_join_witness :
  join base64Marker (split base64Marker longUpload) = longUpload /\
  Forall (fun seg => includes base64Marker seg = false)
         (split base64Marker longUpload).
Proof.
  apply (X9_split_join base64Marker longUpload). discriminate.
Defined.

(** ** Fence stripping *)

Lemma replaceFences_length (s : jsstring) (k : nat) :
  length (replaceFences s k) <= length s.
Proof.
  revert k; induction s as [|c s IH]; intros k; [reflexivity|].
  destruct k as [|k].
  - rewrite replaceFences_0.
    destruct (startsWith fenceJson (c :: s));
      [|destruct (startsWith fence (c :: s))]; simpl.
    + specialize (IH 6). lia.
    + specialize (IH 2). lia.
    + specialize (IH 0). lia.
  - rewrite replaceFences_S. specialize (IH k). simpl. lia.
Qed.

(** X10. Stripping the fences never lengthens a reply, and it leaves the
    reply as it is exactly when the reply holds no triple backtick. *)
Theorem X10_strip_only_removes :
  forall s : jsstring,
    length (stripFences s) <= length s /\
    (stripFences s = s <-> includes fence s = false).
Proof.
  intros s. split; [apply replaceFences_length|]. split.
  - intros Hs. rewrite <- Hs. apply replaceFences_clean.
  - apply stripFences_no_fence.
Qed.

Lemma cleanJson_clean (text : jsstring) :
  includes fence (cleanJson text) = false.
Proof. apply includes_trim_false, replaceFences_clean. Qed.

(** X11. Cleaning a reply is idempotent: a cleaned reply is left as it
    is by a second cleaning, so [JSON.parse] is given the same text. *)
Theorem X11_clean_idempotent :
  forall (E : Externals) (text : jsstring),
    cleanJson (cleanJson text) = cleanJson text /\
    parseReply E (cleanJson text) = parseReply E text.
Proof.
  intros E text.
  assert (Hc : cleanJson (cleanJson text) = cleanJson text).
  { unfold cleanJson at 1.
    rewrite (stripFences_no_fence _ (cleanJson_clean text)).
    apply trim_idem. }
  split; [exact Hc|]. unfold parseReply. now rewrite Hc.
Qed.

(** ** Trimming and the plain text *)

Lemma dropWhile_head {A} (f : A -> bool) (l : list A) (c : A) (t : list A) :
  dropWhile f l = c :: t -> f c = false.
Proof.
  induction l as [|x l IH]; simpl; [discriminate|].
  destruct (f x) eqn:Hx; [exact IH|]. now intros [= <- _].
Qed.

Lemma trim_head (s : jsstring) (c : N) (t : jsstring) :
  trim s = c :: t -> isWhiteSpace c = false.
Proof.
  unfold trim. destruct (trimStart s) as [|d y] eqn:Hy; [discriminate|].
  apply dropWhile_head in Hy.
  rewrite trimEnd_cons_keep by assumption. now intros [= <- _].
Qed.

Lemma trim_last (s : jsstring) (c : N) (t : jsstring) :
  rev (trim s) = c :: t -> isWhiteSpace c = false.
Proof.
  unfold trim, trimEnd. rewrite rev_involutive. apply dropWhile_head.
Qed.

Lemma trim_nil_all_ws (s : jsstring) :
  trim s = [] -> forallb isWhiteSpace s = true.
Proof.
  intros Ht.
  destruct (trimStart_decomp s) as (w1 & Hw1 & H1).
  destruct (trimEnd_decomp (trimStart s)) as (w2 & Hw2 & H2).
  fold (trim s) in H2. rewrite Ht in H2. simpl in H2.
  rewrite H1, H2, forallb_app, Hw1, Hw2. reflexivity.
Qed.

Lemma plainTextTemplate_not_blank (r : RewrittenResume) :
  forallb isWhiteSpace (plainTextTemplate r) = false.
Proof.
  unfold plainTextTemplate. rewrite !forallb_app.
  change (forallb isWhiteSpace (lit "PROFESSIONAL SUMMARY")) with false.
  simpl andb. now rewrite !andb_false_r.
Qed.

(** X12. The plain text of a resume is never empty — the section labels
    are always there — and it neither starts nor ends with a white-space
    character, whatever the fields hold. *)
Theorem X12_plain_text_trimmed :
  forall r : RewrittenResume,
    match plainText r with
    | [] => False
    | c :: _ => isWhiteSpace c = false
    end /\
    match rev (plainText r) with
    | [] => False
    | c :: _ => isWhiteSpace c = false
    end.
Proof.
  intros r.
  assert (Hne : plainText r <> []).
  { intros He. apply trim_nil_all_ws in He.
    now rewrite plainTextTemplate_not_blank in He. }
  split.
  - destruct (plainText r) as [|c t] eqn:Hp; [easy|].
    now apply trim_head in Hp.
  - destruct (rev (plainText r)) as [|c t] eqn:Hp.
    + apply (f_equal (@rev N)) in Hp. now rewrite rev_involutive in Hp.
    + now apply trim_last in Hp.
Qed.

(** ** The document *)

Lemma boldTexts_app (ps qs : list Paragraph) :
  boldTexts (ps ++ qs) = boldTexts ps ++ boldTexts qs.
Proof. apply flat_map_app. Qed.

Lemma boldTexts_map_P {A} (f : A -> jsstring) (l : list A) :
  boldTexts (map (fun x => P (f x)) l) = [].
Proof. induction l as [|x l IH]; [reflexivity | exact IH]. Qed.

Lemma boldTexts_experience (l : list Experience) :
  boldTexts (flat_map experienceParagraphs l) = map titleCompany l.
Proof.
  induction l as [|e l IH]; [reflexivity|].
  cbn [flat_map map]. rewrite boldTexts_app, IH.
  unfold experienceParagraphs. rewrite !boldTexts_app, boldTexts_map_P.
  reflexivity.
Qed.

Lemma titleHeadings_app (ps qs : list Paragraph) :
  titleHeadings (ps ++ qs) = titleHeadings ps ++ titleHeadings qs.
Proof. apply flat_map_app. Qed.

Lemma titleHeadings_map_P {A} (f : A -> jsstring) (l : list A) :
  titleHeadings (map (fun x => P (f x)) l) = [].
Proof. induction l as [|x l IH]; [reflexivity | exact IH]. Qed.

Lemma titleHeadings_experience (l : list Experience) :
  titleHeadings (flat_map experienceParagraphs l) = [].
Proof.
  induction l as [|e l IH]; [reflexivity|].
  cbn [flat_map]. rewrite titleHeadings_app, IH.
  unfold experienceParagraphs.
  rewrite !titleHeadings_app, titleHeadings_map_P. reflexivity.
Qed.

Lemma certificationParagraphs_plain (r : RewrittenResume) :
  boldTexts (certificationParagraphs r) = [] /\
  titleHeadings (certificationParagraphs r) = [].
Proof.
  unfold certificationParagraphs.
  destruct (certifications r) as [[|c cs]|]; try (split; reflexivity).
  change (H HEADING_1 (lit "CERTIFICATIONS") :: map P (c :: cs))
    with ([H HEADING_1 (lit "CERTIFICATIONS")]
            ++ map (fun x => P ((fun y => y) x)) (c :: cs)).
  now rewrite boldTexts_app, titleHeadings_app, boldTexts_map_P,
    titleHeadings_map_P.
Qed.

(** X13. In the document the bold runs are the "title — company" lines
    of the experience entries, one per entry and in their order, and
    nothing else is bold; the one paragraph with the TITLE heading holds
    the name. *)
Theorem X13_document_emphasis :
  forall r : RewrittenResume,
    boldTexts (docChildren r) = map titleCompany (experience r) /\
    titleHeadings (docChildren r) = [name r].
Proof.
  intros r. unfold docChildren. split.
  - rewrite !boldTexts_app, boldTexts_experience, boldTexts_map_P.
    rewrite (proj1 (certificationParagraphs_plain r)).
    simpl. apply app_nil_r.
  - rewrite !titleHeadings_app, titleHeadings_experience,
      titleHeadings_map_P.
    rewrite (proj2 (certificationParagraphs_plain r)).
    simpl. now rewrite paragraphText_H.
Qed.

(** ** The length floor of the routes *)

(** X14. The guard [!text || text.trim().length < 10] of the two upload
    routes holds exactly when the text has fewer than 10 code units once
    trimmed: the emptiness test adds nothing. *)
Theorem X14_floor :
  forall text : jsstring,
    tooShort text = true <-> length (trim text) < 10.
Proof.
  intros text. split; [|apply tooShort_lt].
  destruct text as [|c text]; simpl.
  - intros _. lia.
  - apply Nat.ltb_lt.
Qed.

(** ** The upload routes, case by case *)

(** [/api/analyze-resume] with a payload: every way it can end. *)
Lemma analyzeResume_cases (E : Externals) (p : jsstring)
      (hint : option jsstring) :
  p <> [] ->
  analyzeResume E {| resumeText := Some p; analyze_mimeType := hint |} =
  match extractText E (Buffer_from E (markerSegment p)) hint with
  | (l, Throw e) =>
      (l, failure500 (lit "AI analysis failed")
            (NewError (messageOr e (lit "Could not read file content."))))
  | (l, Ok text) =>
      if tooShort text
      then (l, failure500 (lit "AI analysis failed")
                 (NewError emptyContentMessage))
      else
        let prompt := critiquePrompt (currentDate E) text in
        match generateContent E prompt with
        | Throws m =>
            (l ++ [GenerateContent prompt],
             failure500 (lit "AI analysis failed") (LibraryError m))
        | Returns reply =>
            match JSON_parse E (cleanJson reply) with
            | Throws m =>
                (l ++ [GenerateContent prompt],
                 failure500 (lit "AI analysis failed") (LibraryError m))
            | Returns v =>
                (l ++ [GenerateContent prompt],
                 resJson 200 [ (lit "success", JBool true);
                               (lit "critique", v) ])
            end
        end
  end.
Proof.
  intros Hp. destruct p as [|c p]; [easy|].
  unfold analyzeResume. cbn [resumeText analyze_mimeType].
  rewrite decodePayload_segment, bind_ret_l.
  destruct (extractText E _ hint) as [l [text|e]].
  - unfold tryCatch, bind. destruct (tooShort text).
    + unfold throw, route. now rewrite app_nil_r.
    + cbv zeta. unfold call, liftR, parseReply, ret, route.
      destruct (generateContent E _) as [reply|m]; simpl.
      * destruct (JSON_parse E (cleanJson reply)) as [v|m]; simpl;
          now rewrite ?app_nil_r.
      * reflexivity.
  - unfold tryCatch, throw, bind, route. now rewrite app_nil_r.
Qed.

(** [/api/rewrite-resume] with a payload and a critique, likewise. *)
Lemma rewriteResume_cases (E : Externals) (p : jsstring)
      (hint : option jsstring) (crit : Critique) :
  p <> [] ->
  rewriteResume E {| resumeFile := Some p; rewrite_mimeType := hint;
                     critique := Some crit |} =
  match extractText E (Buffer_from E (markerSegment p)) hint with
  | (l, Throw e) =>
      (l, failure500 (lit "Rewrite failed") (NewError reReadMessage))
  | (l, Ok text) =>
      if tooShort text
      then (l, failure500 (lit "Rewrite failed")
                 (NewError notEnoughTextMessage))
      else
        let prompt := rewritePrompt (currentDate E) text crit in
        match generateContent E prompt with
        | Throws m =>
            (l ++ [GenerateContent prompt],
             failure500 (lit "Rewrite failed") (LibraryError m))
        | Returns reply =>
            match JSON_parse E (cleanJson reply) with
            | Throws m =>
                (l ++ [GenerateContent prompt],
                 failure500 (lit "Rewrite failed") (LibraryError m))
            | Returns v =>
                (l ++ [GenerateContent prompt],
                 resJson 200 [ (lit "success", JBool true);
                               (lit "rewrittenResume", v) ])
            end
        end
  end.
Proof.
  intros Hp. destruct p as [|c p]; [easy|].
  unfold rewriteResume. cbn [resumeFile rewrite_mimeType critique].
  rewrite decodePayload_segment, bind_ret_l.
  destruct (extractText E _ hint) as [l [text|e]].
  - unfold tryCatch, bind. destruct (tooShort text).
    + unfold throw, route. now rewrite app_nil_r.
    + cbv zeta. unfold call, liftR, parseReply, ret, route.
      destruct (generateContent E _) as [reply|m]; simpl.
      * destruct (JSON_parse E (cleanJson reply)) as [v|m]; simpl;
          now rewrite ?app_nil_r.
      * reflexivity.
  - unfold tryCatch, throw, bind, route. now rewrite app_nil_r.
Qed.

Lemma tooShort_ge (text : jsstring) :
  10 <= length (trim text) -> tooShort text = false.
Proof.
  destruct text as [|c text]; simpl; [lia|]. apply Nat.ltb_ge.
Qed.

(** X15. [/api/analyze-resume] answers 400 — and calls nothing — exactly
    when [resumeText] is missing or empty; with a payload the answer is
    200 or 500. *)
Theorem X15_analyze_missing_upload :
  forall (E : Externals) (req : AnalyzeBody),
    match resumeText req with
    | None | Some [] =>
        analyzeResume E req
        = ([], resJson 400
                 [ (lit "success", JBool false);
                   (lit "error", JString (lit "No resume file provided")) ])
    | Some (_ :: _) =>
        status (snd (analyzeResume E req)) = 200 \/
        status (snd (analyzeResume E req)) = 500
    end.
Proof.
  intros E [[[|c p]|] hint]; try reflexivity.
  cbn [resumeText]. rewrite analyzeResume_cases by easy.
  destruct (extractText E _ hint) as [l [text|e]]; [|now right].
  destruct (tooShort text); [now right|]. cbv zeta.
  destruct (generateContent E _) as [reply|m]; [|now right].
  destruct (JSON_parse E _); [now left | now right].
Qed.

(** X16. [/api/analyze-resume] on its way through: when the extraction
    returns a text of at least 10 code units once trimmed, the model is
    called once, with the critique prompt built from today's date and
    that text; when its reply, cleaned, parses to a value, the answer is
    200 with [{success: true, critique: value}] — the value is passed on
    as parsed. *)
Theorem X16_analyze_success :
  forall (E : Externals) (p : jsstring) (hint : option jsstring)
         (l : list Event) (text reply : jsstring) (v : json),
    p <> [] ->
    extractText E (Buffer_from E (markerSegment p)) hint = (l, Ok text) ->
    10 <= length (trim text) ->
    generateContent E (critiquePrompt (currentDate E) text) = Returns reply ->
    JSON_parse E (cleanJson reply) = Returns v ->
    analyzeResume E {| resumeText := Some p; analyze_mimeType := hint |}
    = (l ++ [GenerateContent (critiquePrompt (currentDate E) text)],
       resJson 200 [ (lit "success", JBool true); (lit "critique", v) ]).
Proof.
  intros E p hint l text reply v Hp He Hlen Hg Hj.
  rewrite (analyzeResume_cases _ _ _ Hp), He, (tooShort_ge _ Hlen).
  cbv zeta. now rewrite Hg, Hj.
Qed.

Lemma X16_analyze_success_witness :
  analyzeResume plainEnv {| resumeText := Some longUpload;
                            analyze_mimeType := Some (lit "text/plain") |}
  = ([GenerateContent (critiquePrompt (lit "January 5, 2025") longText)],
     resJson 200 [ (lit "success", JBool true);
                   (lit "critique", JObject []) ]).
Proof.
  apply (X16_analyze_success plainEnv longUpload (Some (lit "text/plain"))
           [] longText (lit "{}") (JObject [])).
  - discriminate.
  - reflexivity.
  - vm_compute. lia.
  - reflexivity.
  - reflexivity.
Defined.

(** X17. When the model throws, or its reply does not parse,
    [/api/analyze-resume] answers 500 with the message of what was
    thrown as [details]; the model has been called once — there is no
    second attempt. *)
Theorem X17_analyze_no_retry :
  forall (E : Externals) (p : jsstring) (hint : option jsstring)
         (l : list Event) (text : jsstring) (m : option jsstring),
    p <> [] ->
    extractText E (Buffer_from E (markerSegment p)) hint = (l, Ok text) ->
    10 <= length (trim text) ->
    (generateContent E (critiquePrompt (currentDate E) text) = Throws m \/
     exists reply,
       generateContent E (critiquePrompt (currentDate E) text) = Returns reply
       /\ JSON_parse E (cleanJson reply) = Throws m) ->
    analyzeResume E {| resumeText := Some p; analyze_mimeType := hint |}
    = (l ++ [GenerateContent (critiquePrompt (currentDate E) text)],
       resJson 500 ([ (lit "success", JBool false);
                      (lit "error", JString (lit "AI analysis failed")) ] ++
                    optField (lit "details") m)).
Proof.
  intros E p hint l text m Hp He Hlen Hf.
  rewrite (analyzeResume_cases _ _ _ Hp), He, (tooShort_ge _ Hlen).
  cbv zeta. destruct Hf as [Hg|(reply & Hg & Hj)].
  - now rewrite Hg.
  - now rewrite Hg, Hj.
Qed.

Lemma X17_analyze_no_retry_witness :
  analyzeResume silentEnv {| resumeText := Some longUpload;
                             analyze_mimeType := None |}
  = ([GenerateContent (critiquePrompt (lit "January 5, 2025") longText)],
     resJson 500 [ (lit "success", JBool false);
                   (lit "error", JString (lit "AI analysis failed"));
                   (lit "details", JString (lit "quota exceeded")) ]) /\
  analyzeResume chattyEnv {| resumeText := Some longUpload;
                             analyze_mimeType := None |}
  = ([GenerateContent (critiquePrompt (lit "January 5, 2025") longText)],
     resJson 500 [ (lit "success", JBool false);
                   (lit "error", JString (lit "AI analysis failed"));
                   (lit "details", JString (lit "Unexpected token")) ]).
Proof.
  split.
  - apply (X17_analyze_no_retry silentEnv longUpload None [] longText
             (Some (lit "quota exceeded"))).
    + discriminate.
    + reflexivity.
    + vm_compute. lia.
    + left. reflexivity.
  - apply (X17_analyze_no_retry chattyEnv longUpload None [] longText
             (Some (lit "Unexpected token"))).
    + discriminate.
    + reflexivity.
    + vm_compute. lia.
    + right. exists (lit "Sure, here it is"). split; reflexivity.
Defined.

Lemma extractText_log_ok (E : Externals) (buffer : Buffer)
      (hint : option jsstring) :
  forallb isExtractionCall (fst (extractText E buffer hint)) = true /\
  length (fst (extractText E buffer hint)) <= 2.
Proof.
  destruct (extractText_log E buffer hint) as [H|[H|[H|H]]];
    rewrite H; simpl; split; trivial; lia.
Qed.

Lemma uploadLog_nil : uploadLog [].
Proof. exists [], []. simpl. repeat split; auto. Qed.

Lemma uploadLog_extraction (E : Externals) (buffer : Buffer)
      (hint : option jsstring) (rest : list Event) :
  rest = [] \/ (exists prompt, rest = [GenerateContent prompt]) ->
  uploadLog (fst (extractText E buffer hint) ++ rest).
Proof.
  intros Hr. exists (fst (extractText E buffer hint)), rest.
  destruct (extractText_log_ok E buffer hint) as [Hf Hl]. auto.
Qed.

(** X18. Whatever the request, an upload route makes at most two calls
    for the extraction and then at most one call to the model, in that
    order; it never calls the packer. *)
Theorem X18_upload_route_calls :
  forall E : Externals,
    (forall req, uploadLog (fst (analyzeResume E req))) /\
    (forall req, uploadLog (fst (rewriteResume E req))).
Proof.
  intros E. split.
  - intros [[[|c p]|] hint]; try apply uploadLog_nil.
    rewrite analyzeResume_cases by easy.
    pose proof (uploadLog_extraction E (Buffer_from E (markerSegment (c :: p)))
                  hint) as Hlog.
    destruct (extractText E _ hint) as [l [text|e]]; simpl in Hlog.
    + destruct (tooShort text).
      * rewrite <- (app_nil_r l). apply Hlog. now left.
      * cbv zeta. destruct (generateContent E _) as [reply|m];
          [destruct (JSON_parse E _)|]; simpl; apply Hlog; right; eauto.
    + simpl. rewrite <- (app_nil_r l). apply Hlog. now left.
  - intros [[[|c p]|] hint [crit|]]; try apply uploadLog_nil.
    rewrite rewriteResume_cases by easy.
    pose proof (uploadLog_extraction E (Buffer_from E (markerSegment (c :: p)))
                  hint) as Hlog.
    destruct (extractText E _ hint) as [l [text|e]]; simpl in Hlog.
    + destruct (tooShort text).
      * rewrite <- (app_nil_r l). apply Hlog. now left.
      * cbv zeta. destruct (generateContent E _) as [reply|m];
          [destruct (JSON_parse E _)|]; simpl; apply Hlog; right; eauto.
    + simpl. rewrite <- (app_nil_r l). apply Hlog. now left.
Qed.

(** X19. When the extraction throws, [/api/analyze-resume] reports the
    message of what was thrown as [details] — or "Could not read file
    content." when that message is missing or empty — while
    [/api/rewrite-resume] hides it behind "Could not re-read the resume
    file. Please try again."; both answer 500 and the model is not
    called. *)
Theorem X19_extraction_failure_details :
  forall (E : Externals) (p : jsstring) (hint : option jsstring)
         (crit : Critique) (l : list Event) (e : exn),
    p <> [] ->
    extractText E (Buffer_from E (markerSegment p)) hint = (l, Throw e) ->
    analyzeResume E {| resumeText := Some p; analyze_mimeType := hint |}
    = (l, resJson 500
            [ (lit "success", JBool false);
              (lit "error", JString (lit "AI analysis failed"));
              (lit "details",
               JString match exn_message e with
                       | Some (c :: m) => c :: m
                       | _ => lit "Could not read file content."
                       end) ]) /\
    rewriteResume E {| resumeFile := Some p; rewrite_mimeType := hint;
                       critique := Some crit |}
    = (l, resJson 500
            [ (lit "success", JBool false);
              (lit "error", JString (lit "Rewrite failed"));
              (lit "details", JString reReadMessage) ]).
Proof.
  intros E p hint crit l e Hp He. split.
  - now rewrite (analyzeResume_cases _ _ _ Hp), He.
  - now rewrite (rewriteResume_cases _ _ _ crit Hp), He.
Qed.

Lemma X19_extraction_failure_details_witness :
  analyzeResume plainEnv {| resumeText := Some pdfUpload;
                            analyze_mimeType := None |}
  = ([GetDocument (primaryOptions plainEnv)],
     resJson 500
       [ (lit "success", JBool false);
         (lit "error", JString (lit "AI analysis failed"));
         (lit "details", JString (lit "Invalid PDF structure")) ]) /\
  rewriteResume plainEnv {| resumeFile := Some pdfUpload;
                            rewrite_mimeType := None;
                            critique := Some sampleCritique |}
  = ([GetDocument (primaryOptions plainEnv)],
     resJson 500
       [ (lit "success", JBool false);
         (lit "error", JString (lit "Rewrite failed"));
         (lit "details", JString reReadMessage) ]).
Proof.
  apply (X19_extraction_failure_details plainEnv pdfUpload None
           sampleCritique [GetDocument (primaryOptions plainEnv)]
           (LibraryError (Some (lit "Invalid PDF structure")))).
  - discriminate.
  - reflexivity.
Defined.

Lemma blank_pages_text (n : nat) :
  forallb isWhiteSpace (concat (map pageLine (repeat [] n))) = true.
Proof. induction n as [|n IH]; [reflexivity | exact IH]. Qed.

(** X20. A PDF whose pages carry no text item — a scan — is extracted
    with success, as one line feed per page; it is the routes that then
    answer 500, with the empty-content details, and the model is not
    called. *)
Theorem X20_scanned_pdf :
  forall (E : Externals) (p : jsstring) (hint : option jsstring)
         (crit : Critique) (n : nat),
    p <> [] ->
    detectMime E (Buffer_from E (markerSegment p)) hint = mimePdf ->
    getDocument E (primaryOptions E) (Buffer_from E (markerSegment p))
    = Returns (map Returns (repeat [] n)) ->
    extractText E (Buffer_from E (markerSegment p)) hint
    = ([GetDocument (primaryOptions E)], Ok (concat (repeat nl n))) /\
    analyzeResume E {| resumeText := Some p; analyze_mimeType := hint |}
    = ([GetDocument (primaryOptions E)],
       failure500 (lit "AI analysis failed") (NewError emptyContentMessage)) /\
    rewriteResume E {| resumeFile := Some p; rewrite_mimeType := hint;
                       critique := Some crit |}
    = ([GetDocument (primaryOptions E)],
       failure500 (lit "Rewrite failed") (NewError notEnoughTextMessage)).
Proof.
  intros E p hint crit n Hp Hm Hd.
  assert (He : extractText E (Buffer_from E (markerSegment p)) hint
               = ([GetDocument (primaryOptions E)],
                  Ok (concat (map pageLine (repeat [] n))))).
  { rewrite (extractText_pdf _ _ _ Hm), extractTextFromPDF_run, Hd.
    simpl. now rewrite pagesText_all. }
  assert (Hs : tooShort (concat (map pageLine (repeat [] n))) = true).
  { apply tooShort_lt. rewrite trim_all_ws by apply blank_pages_text.
    simpl. lia. }
  split; [|split].
  - rewrite He. do 2 f_equal. clear. induction n as [|n IH]; [reflexivity|].
    simpl. now rewrite IH.
  - now rewrite (analyzeResume_cases _ _ _ Hp), He, Hs.
  - now rewrite (rewriteResume_cases _ _ _ crit Hp), He, Hs.
Qed.

Lemma X20_scanned_pdf_witness :
  extractText scannedEnv samplePdf None
  = ([GetDocument (primaryOptions scannedEnv)], Ok (nl ++ nl)) /\
  analyzeResume scannedEnv {| resumeText := Some pdfUpload;
                              analyze_mimeType := None |}
  = ([GetDocument (primaryOptions scannedEnv)],
     failure500 (lit "AI analysis failed") (NewError emptyContentMessage)) /\
  rewriteResume scannedEnv {| resumeFile := Some pdfUpload;
                              rewrite_mimeType := None;
                              critique := Some sampleCritique |}
  = ([GetDocument (primaryOptions scannedEnv)],
     failure500 (lit "Rewrite failed") (NewError notEnoughTextMessage)).
Proof.
  apply (X20_scanned_pdf scannedEnv pdfUpload None sampleCritique 2).
  - discriminate.
  - reflexivity.
  - reflexivity.
Defined.

(** X21. [/api/rewrite-resume] on its way through: when the extraction
    returns a text of at least 10 code units once trimmed, the model is
    called once, with the rewrite prompt built from today's date, that
    text and the critique; when its reply, cleaned, parses to a value,
    the answer is 200 with [{success: true, rewrittenResume: value}] —
    the value is not checked against the shape of a resume. *)
Theorem X21_rewrite_success :
  forall (E : Externals) (p : jsstring) (hint : option jsstring)
         (crit : Critique) (l : list Event) (text reply : jsstring)
         (v : json),
    p <> [] ->
    extractText E (Buffer_from E (markerSegment p)) hint = (l, Ok text) ->
    10 <= length (trim text) ->
    generateContent E (rewritePrompt (currentDate E) text crit)
    = Returns reply ->
    JSON_parse E (cleanJson reply) = Returns v ->
    rewriteResume E {| resumeFile := Some p; rewrite_mimeType := hint;
                       critique := Some crit |}
    = (l ++ [GenerateContent (rewritePrompt (currentDate E) text crit)],
       resJson 200 [ (lit "success", JBool true);
                     (lit "rewrittenResume", v) ]).
Proof.
  intros E p hint crit l text reply v Hp He Hlen Hg Hj.
  rewrite (rewriteResume_cases _ _ _ crit Hp), He, (tooShort_ge _ Hlen).
  cbv zeta. now rewrite Hg, Hj.
Qed.

Lemma X21_rewrite_success_witness :
  rewriteResume plainEnv {| resumeFile := Some longUpload;
                            rewrite_mimeType := None;
                            critique := Some sampleCritique |}
  = ([GenerateContent
        (rewritePrompt (lit "January 5, 2025") longText sampleCritique)],
     resJson 200 [ (lit "success", JBool true);
                   (lit "rewrittenResume", JObject []) ]).
Proof.
  apply (X21_rewrite_success plainEnv longUpload None sampleCritique
           [] longText (lit "{}") (JObject [])).
  - discriminate.
  - reflexivity.
  - vm_compute. lia.
  - reflexivity.
  - reflexivity.
Defined.

(** X22. [/api/rewrite-resume] answers 400 — and calls nothing — exactly
    when the file is missing or empty or the critique is missing; with
    both present the answer is 200 or 500. *)
Theorem X22_rewrite_missing_input :
  forall (E : Externals) (req : RewriteBody),
    match resumeFile req, critique req with
    | Some (_ :: _), Some _ =>
        status (snd (rewriteResume E req)) = 200 \/
        status (snd (rewriteResume E req)) = 500
    | _, _ =>
        rewriteResume E req
        = ([], resJson 400
                 [ (lit "success", JBool false);
                   (lit "error",
                    JString (lit "Missing resume file or critique")) ])
    end.
Proof.
  intros E [[[|c p]|] hint [crit|]]; try reflexivity.
  cbn [resumeFile critique]. rewrite rewriteResume_cases by easy.
  destruct (extractText E _ hint) as [l [text|e]]; [|now right].
  destruct (tooShort text); [now right|]. cbv zeta.
  destruct (generateContent E _) as [reply|m]; [|now right].
  destruct (JSON_parse E _); [now left | now right].
Qed.

(** ** The prompts *)

Lemma startsWith_includes (p s : jsstring) :
  startsWith p s = true -> includes p s = true.
Proof. intros Hp. destruct s; simpl; now rewrite Hp. Qed.

Lemma includes_app_right (p a b : jsstring) :
  includes p b = true -> includes p (a ++ b) = true.
Proof.
  intros Hb. induction a as [|c a IH]; [exact Hb|].
  change ((c :: a) ++ b) with (c :: (a ++ b)).
  rewrite includes_cons, IH. apply orb_true_r.
Qed.

Lemma includes_app_left (p a b : jsstring) :
  includes p a = true -> includes p (a ++ b) = true.
Proof.
  induction a as [|c a IH].
  - destruct p as [|x p]; [|discriminate]. intros _. now destruct b.
  - change ((c :: a) ++ b) with (c :: (a ++ b)).
    rewrite !includes_cons. intros Ha.
    apply orb_true_iff in Ha as [Ha|Ha].
    + apply orb_true_iff. left.
      exact (startsWith_app_r p (c :: a) b Ha).
    + rewrite (IH Ha). apply orb_true_r.
Qed.

Lemma includes_here (p a b : jsstring) : includes p (a ++ p ++ b) = true.
Proof.
  apply includes_app_right, startsWith_includes, startsWith_app.
Qed.

Lemma includes_end (p a : jsstring) : includes p (a ++ p) = true.
Proof. rewrite <- (app_nil_r p) at 2. apply includes_here. Qed.

Lemma includes_join (p sep x : jsstring) (l : list jsstring) :
  In x l -> includes p x = true -> includes p (join sep l) = true.
Proof.
  intros Hin Hx. induction l as [|y [|z l] IH]; [easy| |].
  - destruct Hin as [->|[]]. exact Hx.
  - change (join sep (y :: z :: l)) with (y ++ sep ++ join sep (z :: l)).
    destruct Hin as [->|Hin].
    + now apply includes_app_left.
    + apply includes_app_right, includes_app_right. now apply IH.
Qed.

(** A line of a prompt that holds the text. *)
Ltac prompt_line line :=
  apply includes_app_right, includes_app_left, includes_join with (x := line);
  [ repeat first [ left; reflexivity | right ]
  | first [ apply includes_end | apply (includes_here _ _ _) ] ].

(** X23. The critique prompt carries its two inputs as they are: the
    date and the whole of the extracted text occur in it. *)
Theorem X23_critique_prompt_inputs :
  forall currentDate extractedText : jsstring,
    includes currentDate (critiquePrompt currentDate extractedText) = true /\
    includes extractedText (critiquePrompt currentDate extractedText) = true.
Proof.
  intros d t. unfold critiquePrompt. split.
  - prompt_line
      (lit "      You are an expert resume critic. Today's date is "
         ++ d ++ lit ".").
  - prompt_line (lit "      " ++ t).
Qed.

(** X24. The rewrite prompt carries the date, the whole of the resume
    text and the strengths, weaknesses and suggestions of the critique
    as they are; the overall score of the critique is not part of it. *)
Theorem X24_rewrite_prompt_inputs :
  forall (currentDate resumeContent : jsstring) (crit : Critique),
    let prompt := rewritePrompt currentDate resumeContent crit in
    includes currentDate prompt = true /\
    includes resumeContent prompt = true /\
    includes (strengths crit) prompt = true /\
    includes (weaknesses crit) prompt = true /\
    includes (suggestions crit) prompt = true /\
    forall score,
      rewritePrompt currentDate resumeContent
        {| strengths := strengths crit; weaknesses := weaknesses crit;
           suggestions := suggestions crit; overall := score |}
      = prompt.
Proof.
  intros d t crit prompt. subst prompt. unfold rewritePrompt.
  repeat split.
  - prompt_line
      (lit "      You are a professional resume editor. Today's date is "
         ++ d ++ lit ".").
  - prompt_line (lit "      " ++ t).
  - prompt_line (lit "      Strengths: " ++ strengths crit).
  - prompt_line (lit "      Weaknesses: " ++ weaknesses crit).
  - prompt_line (lit "      Suggestions: " ++ suggestions crit).
Qed.

(** ** The download route, further *)

(** X25. [/api/download-resume] answers 400 "Missing resume data or
    format", calling nothing, when the resume or the format is missing
    or the format is empty. With both present the template is built
    first: where it throws the answer is 500 whatever the format, known
    or not; where it is built, a format that is none of [txt], [docx],
    [doc], [pdf] — compared as they are, case included — is answered
    400 "Unsupported format" with no call, and a known one 200 or
    500. *)
Theorem X25_download_bad_request :
  forall (E : Externals) (req : DownloadRequest),
    match req_rewrittenResume req, req_format req with
    | Some raw, Some (c :: f) =>
        match renderPlainText E raw with
        | Throw e =>
            downloadRoute E req = ([], failure500 (lit "Download failed") e)
        | Ok _ =>
            if existsb (jsEqb (c :: f)) knownFormats
            then status (snd (downloadRoute E req)) = 200 \/
                 status (snd (downloadRoute E req)) = 500
            else downloadRoute E req
                 = ([], resJson 400
                          [ (lit "success", JBool false);
                            (lit "error",
                             JString (lit "Unsupported format")) ])
        end
    | _, _ =>
        downloadRoute E req
        = ([], resJson 400
                 [ (lit "success", JBool false);
                   (lit "error",
                    JString (lit "Missing resume data or format")) ])
    end.
Proof.
  intros E [[raw|] [[|c f]|]]; try reflexivity.
  cbn [req_rewrittenResume req_format].
  rewrite downloadRoute_cases by easy.
  destruct (renderPlainText E raw) as [text|e]; [|reflexivity].
  unfold knownFormats. cbn [existsb].
  generalize (c :: f) as fmt. intros fmt.
  destruct (jsEqb fmt (lit "txt")); [now left|].
  destruct (jsEqb fmt (lit "docx")); simpl.
  - destruct (rawDocChildren E raw); [|now right].
    destruct (Packer_toBuffer E (Date_now E) _); [now left | now right].
  - destruct (jsEqb fmt (lit "doc")); simpl.
    + destruct (rawDocChildren E raw); [|now right].
      destruct (Packer_toBuffer E (Date_now E) _); [now left | now right].
    + destruct (jsEqb fmt (lit "pdf")); simpl; [now left | reflexivity].
Qed.

(** X26. When the packer throws, a download in the format [docx] or
    [doc] is answered 500, "Download failed", with the message of what
    was thrown as [details]; no attachment header is part of that
    answer. *)
Theorem X26_download_packer_failure :
  forall (E : Externals) (r : RewrittenResume) (fmt : jsstring)
         (m : option jsstring),
    fmt = lit "docx" \/ fmt = lit "doc" ->
    Packer_toBuffer E (Date_now E) (buildDocument r) = Throws m ->
    downloadResume E {| rewrittenResume := Some r; format := Some fmt |}
    = ([PackerToBuffer (buildDocument r)],
       {| status := 500;
          headers := [];
          body := BodyJson
                    (JObject ([ (lit "success", JBool false);
                                (lit "error",
                                 JString (lit "Download failed")) ] ++
                              optField (lit "details") m)) |}).
Proof.
  intros E r fmt m Hf Hp.
  rewrite downloadResume_cases by (destruct Hf; subst; discriminate).
  destruct Hf; subst fmt; simpl; now rewrite Hp.
Qed.

Lemma X26_download_packer_failure_witness :
  downloadResume brokenPackerEnv
    {| rewrittenResume := Some sampleResume; format := Some (lit "docx") |}
  = ([PackerToBuffer (buildDocument sampleResume)],
     resJson 500 [ (lit "success", JBool false);
                   (lit "error", JString (lit "Download failed"));
                   (lit "details", JString (lit "out of memory")) ]).
Proof.
  apply (X26_download_packer_failure brokenPackerEnv sampleResume
           (lit "docx") (Some (lit "out of memory"))).
  - left. reflexivity.
  - reflexivity.
Defined.


